(** * FlowMotion auto-scheduler: a shallow embedding of [AutoScheduler]

    The embedded code is the class [AutoScheduler] (the scheduling module that
    [CalendarView.tsx] imports as [./scheduling]; in this source tree it is
    listed in [src/hooks/useSpeech.ts], lines 571-987) together with the types
    it uses from [CalendarTypes.ts] and [TaskTypes.ts].

    Modelling conventions.
    - A JavaScript [Date] is its time value: milliseconds since the epoch, an
      integer ([Z]).  Local time is UTC shifted by a fixed offset [tz]
      (milliseconds); daylight-saving changes are not modelled.
    - JavaScript numbers that are not integers by construction (scores,
      confidences, hours-to-deadline) are exact rationals ([Q]); the rounding
      of IEEE doubles is not modelled.
    - [new Date()] reads an ambient clock.  The clock is an oracle
      [clock : nat -> Date]; the k-th read of a run returns [clock k].
    - [this.existingEvents] and the [tasks] argument are JavaScript arrays,
      i.e. references.  The constructor stores the caller's array itself, so
      the model keeps ONE cell per array in the [World]; every read and write
      of scheduler and caller goes to that cell.
    - The two [while] loops run on fuel computed from their bounds; the
      lemmas [findSlotsInRange_unfold] and [findAvailableSlots_unfold] show
      that the fuel never runs out. *)

From Stdlib Require Import ZArith QArith List String Ascii Bool Lia.
From Stdlib Require Import Permutation Sorted DecimalString.
Import ListNotations.

Close Scope Q_scope.
Open Scope string_scope.
Open Scope list_scope.
Open Scope Z_scope.

(** ** Dates *)

Definition Date := Z.

Definition msPerMinute : Z := 1000 * 60.
Definition msPerHour : Z := 1000 * 60 * 60.
Definition msPerDay : Z := 1000 * 60 * 60 * 24.

(** ** Types of [TaskTypes.ts] and [CalendarTypes.ts]
    (fields the scheduler never touches are left out) *)

Inductive Priority := low | medium | high.

Module Task.
Record t := mk {
  id : string;
  title : string;
  priority : Priority;
  estimatedDuration : Z;             (* in minutes *)
  deadline : option Date;            (* deadline?: Date *)
  createdAt : Date;
  dependencies : option (list string); (* dependencies?: string[] *)
  isFlexible : bool
}.
End Task.

Inductive EventType := type_task | type_meeting | type_block | type_break.

Module CalendarEvent.
Record t := mk {
  id : string;
  title : string;
  start : Date;
  end_ : Date;
  type : EventType;
  taskId : option string;            (* taskId?: string *)
  isFlexible : bool
}.
End CalendarEvent.

Module WorkingHours.
Record t := mk {
  start : string;                    (* HH:MM format *)
  end_ : string;                     (* HH:MM format *)
  daysOfWeek : list Z                (* 0-6, Sunday-Saturday *)
}.
End WorkingHours.

Module CalendarSettings.
Record t := mk {
  workingHours : WorkingHours.t;
  defaultTaskDuration : Z;
  breakDuration : Z;
  bufferTime : Z;                    (* in minutes between tasks *)
  weekStartsOn : Z
}.
End CalendarSettings.

Module TimeSlot.
Record t := mk {
  start : Date;
  end_ : Date;
  duration : Z;
  isAvailable : bool
}.
End TimeSlot.

Module ScheduledTask.
Record t := mk {
  taskId : string;
  start : Date;
  end_ : Date;
  confidence : Q
}.
End ScheduledTask.

Module Conflict.
Record t := mk {
  taskId : string;
  reason : string;
  suggestedTime : option Date
}.
End Conflict.

Inductive ActionType := extend_hours | reduce_tasks | adjust_deadlines.

Module Suggestion.
Record t := mk {
  message : string;
  actionType : ActionType;
  data : list (string * nat)         (* Record<string, unknown> *)
}.
End Suggestion.

Module SchedulingResult.
Record t := mk {
  success : bool;
  scheduledTasks : list ScheduledTask.t;
  unscheduledTasks : list string;
  conflicts : list Conflict.t;
  suggestions : list Suggestion.t
}.
End SchedulingResult.

(** The three object shapes [scheduleTask] returns: [success: true] with
    [start], [end], [confidence]; or [success: false] with [confidence: 0],
    a [reason] and possibly a [suggestedTime]. *)
Inductive SchedulingAttempt :=
| Scheduled (start end_ : Date) (confidence : Q)
| NotScheduled (reason : option string) (suggestedTime : option Date).

(** ** JavaScript built-ins used by the scheduler *)

(** [String.prototype.split] on a one-character separator. *)
Fixpoint split (sep : ascii) (s : string) : list string :=
  match s with
  | EmptyString => [EmptyString]
  | String c s' =>
      if Ascii.eqb c sep then EmptyString :: split sep s'
      else match split sep s' with
           | h :: rest => String c h :: rest
           | [] => [String c EmptyString]
           end
  end.

Definition isWhiteSpace (c : ascii) : bool :=
  let n := nat_of_ascii c in
  (Nat.eqb n 32 || (Nat.leb 9 n && Nat.leb n 13))%bool.

Fixpoint trimStart (s : string) : string :=
  match s with
  | String c s' => if isWhiteSpace c then trimStart s' else s
  | EmptyString => s
  end.

Definition digitValue (radix : Z) (c : ascii) : option Z :=
  let n := Z.of_nat (nat_of_ascii c) in
  let v := if (48 <=? n) && (n <=? 57) then Some (n - 48)
           else if (97 <=? n) && (n <=? 122) then Some (n - 87)
           else if (65 <=? n) && (n <=? 90) then Some (n - 55)
           else None in
  match v with
  | Some d => if d <? radix then Some d else None
  | None => None
  end.

Fixpoint parseDigits (radix : Z) (s : string) (acc : option Z) : option Z :=
  match s with
  | String c s' =>
      match digitValue radix c with
      | Some d =>
          parseDigits radix s'
            (Some (radix * match acc with Some a => a | None => 0 end + d))
      | None => acc
      end
  | EmptyString => acc
  end.

(** [parseInt(x)] without a radix: leading (ASCII) white space, a sign, an
    optional [0x] prefix, then the longest run of digits; [None] is [NaN].
    The argument is [None] when the array index was out of range
    ([undefined]). *)
Definition parseInt (x : option string) : option Z :=
  match x with
  | None => None
  | Some s =>
      let s := trimStart s in
      let '(sign, s) :=
        match s with
        | String "-" s' => (-1, s')
        | String "+" s' => (1, s')
        | _ => (1, s)
        end in
      let '(radix, s) :=
        match s with
        | String "0" (String "x" s') => (16, s')
        | String "0" (String "X" s') => (16, s')
        | _ => (10, s)
        end in
      option_map (Z.mul sign) (parseDigits radix s None)
  end.

(** [Math.min] on numbers that are not NaN. *)
Definition Math_min (a b : Q) : Q := if Qle_bool a b then a else b.
Definition Math_max (a b : Q) : Q := if Qle_bool a b then b else a.

(** [a > b] and [a < b] on such numbers. *)
Definition Qgtb (a b : Q) : bool := negb (Qle_bool a b).
Definition Qltb (a b : Q) : bool := negb (Qle_bool b a).

(** ** date-fns *)

Definition addMinutes (d : Date) (amount : Z) : Date := d + amount * msPerMinute.

(** [isWithinInterval(date, {start, end})]: inclusive at both ends.  date-fns
    3 and later order the two ends first; date-fns 2 raises [RangeError] when
    [start > end].  The two agree whenever [start <= end]. *)
Definition isWithinInterval (date start end_ : Date) : bool :=
  (Z.min start end_ <=? date) && (date <=? Z.max start end_).

Section LocalTime.

(** Offset of local time from UTC, in milliseconds. *)
Variable tz : Z.

Definition startOfLocalDay (d : Date) : Date := d - (d + tz) mod msPerDay.

Definition getHours (d : Date) : Z := ((d + tz) mod msPerDay) / msPerHour.

(** 1 January 1970 was a Thursday (day 4). *)
Definition getDay (d : Date) : Z := ((d + tz) / msPerDay + 4) mod 7.

(** [d.setHours(h, m, 0, 0)]; an argument that is [NaN] gives an Invalid
    Date ([None]).  JavaScript sets the wall-clock time of the local day;
    with the fixed offset [tz] that is the instant [h] hours and [m] minutes
    after local midnight.  On a day with a daylight-saving change the two
    differ by the size of the change. *)
Definition setHours (d : Date) (h m : option Z) : option Date :=
  match h, m with
  | Some h, Some m => Some (startOfLocalDay d + h * msPerHour + m * msPerMinute)
  | _, _ => None
  end.

(** date-fns [endOfDay]: 23:59:59.999 local time. *)
Definition endOfDay (d : Date) : Date := startOfLocalDay d + msPerDay - 1.

(** date-fns [addDays] moves the local calendar date and keeps the
    wall-clock time; with the fixed offset [tz] every local day has
    [msPerDay] milliseconds, so the move is [amount] times 24 hours.  Across
    a daylight-saving change the program's move is an hour shorter or
    longer. *)
Definition addDays (d : Date) (amount : Z) : Date := d + amount * msPerDay.

(** [current.setDate(current.getDate() + 1); current.setHours(0, 0, 0, 0)] *)
Definition startOfNextDay (d : Date) : Date := startOfLocalDay d + msPerDay.

End LocalTime.

(** ** The shared store and the effects of a run *)

Record World := mkWorld {
  (* the array object [this.existingEvents]; the constructor stored the
     caller's array, not a copy *)
  existingEvents : list CalendarEvent.t;
  (* the array object passed as [tasks] to [scheduleAllTasks] *)
  tasksArray : list Task.t;
  (* how many times the clock has been read *)
  clockReads : nat
}.

Definition M (A : Type) : Type := World -> A * World.

Definition ret {A} (a : A) : M A := fun w => (a, w).

Definition bind {A B} (c : M A) (k : A -> M B) : M B :=
  fun w => let (a, w') := c w in k a w'.

Notation "x <- c ;; k" := (bind c (fun x => k))
  (at level 61, c at next level, right associativity).
Notation "c ;;; k" := (bind c (fun _ => k))
  (at level 61, right associativity).

(** [this.existingEvents.push(e)] *)
Definition pushExistingEvent (e : CalendarEvent.t) : M unit :=
  fun w => (tt, mkWorld (existingEvents w ++ [e]) (tasksArray w) (clockReads w)).

Definition readExistingEvents : M (list CalendarEvent.t) :=
  fun w => (existingEvents w, w).

Definition readTasks : M (list Task.t) := fun w => (tasksArray w, w).

Definition writeTasks (l : list Task.t) : M unit :=
  fun w => (tt, mkWorld (existingEvents w) l (clockReads w)).

(** [Array.prototype.sort(compare)], in place.  ECMAScript requires the sort
    to be stable and leaves the sequence of [compare] calls to the engine; the
    model is a stable insertion sort.  [compare a b > 0] puts [b] first. *)
Fixpoint insertM {A} (compare : A -> A -> M Z) (x : A) (l : list A) : M (list A) :=
  match l with
  | [] => ret [x]
  | y :: l' =>
      c <- compare x y ;;
      if c >? 0 then (r <- insertM compare x l' ;; ret (y :: r))
      else ret (x :: y :: l')
  end.

Fixpoint sortM {A} (compare : A -> A -> M Z) (l : list A) : M (list A) :=
  match l with
  | [] => ret []
  | x :: l' => s <- sortM compare l' ;; insertM compare x s
  end.

(** [Array.prototype.filter] with a predicate that has effects. *)
Fixpoint filterM {A} (p : A -> M bool) (l : list A) : M (list A) :=
  match l with
  | [] => ret []
  | x :: l' =>
      b <- p x ;;
      r <- filterM p l' ;;
      ret (if b then x :: r else r)
  end.

(** Template-literal rendering of a length. *)
Definition showNat (n : nat) : string := NilEmpty.string_of_uint (Nat.to_uint n).

(** ** class AutoScheduler *)

Section AutoScheduler.

Variable tz : Z.
Variable clock : nat -> Date.

(** [this.settings] *)
Variable settings : CalendarSettings.t.

(** [new Date()] *)
Definition newDate : M Date :=
  fun w => (clock (clockReads w),
            mkWorld (existingEvents w) (tasksArray w) (S (clockReads w))).

(** *** Helper functions *)

Definition getPriorityWeight (priority : Priority) : Z :=
  match priority with high => 3 | medium => 2 | low => 1 end.

Definition getUrgencyScore (task : Task.t) : M Z :=
  match Task.deadline task with
  | None => ret 0
  | Some deadline =>
      now <- newDate ;;
      let hoursToDeadline := (inject_Z (deadline - now) / inject_Z msPerHour)%Q in
      if Qltb hoursToDeadline 0 then ret 10          (* Overdue *)
      else if Qltb hoursToDeadline 24 then ret 8     (* Due today *)
      else if Qltb hoursToDeadline 48 then ret 6     (* Due tomorrow *)
      else if Qltb hoursToDeadline 168 then ret 4    (* Due this week *)
      else ret 2                                     (* Not urgent *)
  end.

Definition dependsOn (taskId : string) (t : Task.t) : bool :=
  match Task.dependencies t with
  | Some deps => existsb (String.eqb taskId) deps
  | None => false
  end.

Definition getDependencyLevel (task : Task.t) (allTasks : list Task.t) : Z :=
  Z.of_nat (List.length (filter (dependsOn (Task.id task)) allTasks)).

Definition getBufferAfter (events : list CalendarEvent.t) (slot : TimeSlot.t) : Q :=
  match find (fun e => CalendarEvent.start e >=? TimeSlot.end_ slot) events with
  | None => 60%Q                       (* Assume 1 hour buffer if no next event *)
  | Some nextEvent =>
      (inject_Z (CalendarEvent.start nextEvent - TimeSlot.end_ slot)
         / inject_Z msPerMinute)%Q
  end.

(** *** Find conflicts with existing events *)

Definition conflictsWith (start end_ : Date) (event : CalendarEvent.t) : bool :=
  isWithinInterval start (CalendarEvent.start event) (CalendarEvent.end_ event)
  || isWithinInterval end_ (CalendarEvent.start event) (CalendarEvent.end_ event)
  || isWithinInterval (CalendarEvent.start event) start end_
  || isWithinInterval (CalendarEvent.end_ event) start end_.

Definition findConflicts (events : list CalendarEvent.t) (start end_ : Date)
  : list CalendarEvent.t :=
  filter (conflictsWith start end_) events.

(** *** Get working hours for a specific date *)

Definition getWorkingHoursForDate (date : Date) : option WorkingHours.t :=
  let dayOfWeek := getDay tz date in
  if existsb (Z.eqb dayOfWeek)
       (WorkingHours.daysOfWeek (CalendarSettings.workingHours settings))
  then Some (CalendarSettings.workingHours settings)
  else None.

(** *** Find available slots within a specific time range

    The [while] loop advances [current] by 15 minutes per turn, so it makes
    at most [(end - start) / 15min + 1] turns; [fuel] is that bound. *)

Definition slotStep : Z := 15 * 60 * 1000.

Fixpoint findSlotsLoop (fuel : nat) (events : list CalendarEvent.t)
    (end_ : Date) (durationMinutes slotDuration : Z) (current : Date)
  : list TimeSlot.t :=
  match fuel with
  | O => []
  | S fuel' =>
      if current <=? end_ then
        let slotEnd := addMinutes current slotDuration in
        if slotEnd >? end_ then []     (* break *)
        else
          let conflicts := findConflicts events current slotEnd in
          (match conflicts with
           | [] => [TimeSlot.mk current (addMinutes current durationMinutes)
                      durationMinutes true]
           | _ :: _ => []
           end)
          ++ findSlotsLoop fuel' events end_ durationMinutes slotDuration
               (current + slotStep)
      else []
  end.

Definition findSlotsInRange (events : list CalendarEvent.t)
    (start end_ : Date) (durationMinutes : Z) : list TimeSlot.t :=
  let slotDuration := durationMinutes + CalendarSettings.bufferTime settings in
  findSlotsLoop (S (Z.to_nat ((end_ - start) / slotStep)))
    events end_ durationMinutes slotDuration start.

(** *** Find available time slots within a date range

    [current] moves to the next local midnight on every turn, so the loop
    makes at most [(end - start) / day + 2] turns. *)

Definition parseTime (d : Date) (hhmm : string) : option Date :=
  setHours tz d (parseInt (nth_error (split ":" hhmm) 0))
                (parseInt (nth_error (split ":" hhmm) 1)).

Fixpoint findAvailableSlotsLoop (fuel : nat) (events : list CalendarEvent.t)
    (end_ : Date) (durationMinutes : Z) (current : Date) : list TimeSlot.t :=
  match fuel with
  | O => []
  | S fuel' =>
      if current <? end_ then
        let dayEnd := endOfDay tz current in
        let searchEnd := if dayEnd <? end_ then dayEnd else end_ in
        (match getWorkingHoursForDate current with
         | Some workingHours =>
             let workStart := parseTime current (WorkingHours.start workingHours) in
             let workEnd := parseTime current (WorkingHours.end_ workingHours) in
             findSlotsInRange events
               (match workStart with
                | Some ws => if ws >? current then ws else current
                | None => current
                end)
               (match workEnd with
                | Some we => if we <? searchEnd then we else searchEnd
                | None => searchEnd
                end)
               durationMinutes
         | None => []
         end)
        ++ findAvailableSlotsLoop fuel' events end_ durationMinutes
             (startOfNextDay tz current)
      else []
  end.

Definition findAvailableSlots (events : list CalendarEvent.t)
    (start end_ : Date) (durationMinutes : Z) : list TimeSlot.t :=
  findAvailableSlotsLoop (S (S (Z.to_nat ((end_ - start) / msPerDay))))
    events end_ durationMinutes start.

(** *** Score a time slot based on task preferences

    The three summands of [scoreTimeSlot], in source order. *)

Definition earlyInDayScore (slot : TimeSlot.t) (task : Task.t) : Q :=
  match Task.priority task with
  | high =>
      let hour := getHours tz (TimeSlot.start slot) in
      if hour <? 12 then 10%Q else if hour <? 15 then 5%Q else 0%Q
  | _ => 0%Q
  end.

Definition deadlineScore (slot : TimeSlot.t) (task : Task.t) : Q :=
  match Task.deadline task with
  | Some deadline =>
      let hoursToDeadline :=
        (inject_Z (deadline - TimeSlot.start slot) / inject_Z msPerHour)%Q in
      if Qgtb hoursToDeadline 0
      then Math_min (hoursToDeadline / 24)%Q 10%Q    (* Max 10 points *)
      else 0%Q
  | None => 0%Q
  end.

Definition bufferScore (events : list CalendarEvent.t) (slot : TimeSlot.t) : Q :=
  let bufferAfter := getBufferAfter events slot in
  Math_min (bufferAfter / 30)%Q 5%Q.                 (* Max 5 points *)

Definition scoreTimeSlot (events : list CalendarEvent.t)
    (slot : TimeSlot.t) (task : Task.t) : Q :=
  (0 + earlyInDayScore slot task + deadlineScore slot task
     + bufferScore events slot)%Q.

(** *** Select the best time slot: [slots.reduce] without initial value *)

Definition selectBestTimeSlot (events : list CalendarEvent.t)
    (first : TimeSlot.t) (rest : list TimeSlot.t) (task : Task.t) : TimeSlot.t :=
  fold_left
    (fun best current =>
       let currentScore := scoreTimeSlot events current task in
       let bestScore := scoreTimeSlot events best task in
       if Qgtb currentScore bestScore then current else best)
    rest first.

(** *** Calculate confidence score for a scheduling decision *)

Definition calculateSchedulingConfidence (slot : TimeSlot.t) (task : Task.t) : Q :=
  let confidence := (7 # 10)%Q in
  let confidence :=
    match Task.priority task with
    | high => if getHours tz (TimeSlot.start slot) <? 12
              then (confidence + (2 # 10))%Q else confidence
    | _ => confidence
    end in
  let confidence :=
    match Task.deadline task with
    | Some deadline =>
        let hoursToDeadline :=
          (inject_Z (deadline - TimeSlot.start slot) / inject_Z msPerHour)%Q in
        if Qgtb hoursToDeadline 48 then (confidence + (1 # 10))%Q else confidence
    | None => confidence
    end in
  let hour := getHours tz (TimeSlot.start slot) in
  let confidence :=
    if (hour <? 8) || (hour >? 18) then (confidence - (1 # 10))%Q else confidence in
  Math_max 0 (Math_min 1 confidence).

(** *** Check if task dependencies are satisfied *)

Definition missingDependencies (events : list CalendarEvent.t)
    (deps : list string) : list string :=
  filter
    (fun depId =>
       match find (fun e => match CalendarEvent.taskId e with
                            | Some i => String.eqb i depId
                            | None => false
                            end) events with
       | Some _ => false
       | None => true
       end)
    deps.

(** Returns [(satisfied, missing)]. *)
Definition checkDependencies (events : list CalendarEvent.t) (task : Task.t)
  : bool * list string :=
  match Task.dependencies task with
  | None => (true, [])
  | Some [] => (true, [])
  | Some deps =>
      let missing := missingDependencies events deps in
      (Nat.eqb (List.length missing) 0, missing)
  end.

(** *** Calculate the scheduling window for a task *)

Definition calculateSchedulingWindow (task : Task.t) : M (Date * Date) :=
  now <- newDate ;;
  let start := if now >? Task.createdAt task then now else Task.createdAt task in
  (* Default to 2 weeks if no deadline *)
  let end_ := match Task.deadline task with
              | Some d => d
              | None => addDays start 14
              end in
  ret (start, end_).

(** *** Suggest alternative time for unscheduled tasks *)

Definition suggestAlternativeTime : M Date :=
  now <- newDate ;;
  let tomorrow := addDays now 1 in
  (* tomorrow.setHours(9, 0, 0, 0) *)
  ret (startOfLocalDay tz tomorrow + 9 * msPerHour).

(** *** Schedule a single task *)

Definition scheduleTask (task : Task.t) : M SchedulingAttempt :=
  events <- readExistingEvents ;;
  let dependencyCheck := checkDependencies events task in
  if negb (fst dependencyCheck) then
    ret (NotScheduled
           (Some ("Dependencies not satisfied: "
                    ++ String.concat ", " (snd dependencyCheck))%string)
           None)
  else
    schedulingWindow <- calculateSchedulingWindow task ;;
    let availableSlots :=
      findAvailableSlots events (fst schedulingWindow) (snd schedulingWindow)
        (Task.estimatedDuration task) in
    match availableSlots with
    | [] =>
        suggested <- suggestAlternativeTime ;;
        ret (NotScheduled (Some "No available time slots found") (Some suggested))
    | first :: rest =>
        let bestSlot := selectBestTimeSlot events first rest task in
        ret (Scheduled (TimeSlot.start bestSlot) (TimeSlot.end_ bestSlot)
               (calculateSchedulingConfidence bestSlot task))
    end.

(** *** Prioritize tasks based on multiple factors

    The comparator reads [tasks], the array being sorted, to count
    dependents; the count is the same for every arrangement of the array. *)

Definition compareTasks (tasks : list Task.t) (a b : Task.t) : M Z :=
  let priorityWeightA := getPriorityWeight (Task.priority a) in
  let priorityWeightB := getPriorityWeight (Task.priority b) in
  urgencyA <- getUrgencyScore a ;;
  urgencyB <- getUrgencyScore b ;;
  let dependencyLevelA := getDependencyLevel a tasks in
  let dependencyLevelB := getDependencyLevel b tasks in
  let scoreA := priorityWeightA * 10 + urgencyA * 5 + dependencyLevelA * 3 in
  let scoreB := priorityWeightB * 10 + urgencyB * 5 + dependencyLevelB * 3 in
  ret (scoreB - scoreA).

(** [tasks.sort(...)] sorts the argument array in place and returns it. *)
Definition prioritizeTasks : M (list Task.t) :=
  tasks <- readTasks ;;
  sorted <- sortM (compareTasks tasks) tasks ;;
  writeTasks sorted ;;;
  ret sorted.

(** *** Generate suggestions for scheduling optimization *)

Definition generateSuggestions (result : SchedulingResult.t) (tasks : list Task.t)
  : M (list Suggestion.t) :=
  let unscheduledCount := List.length (SchedulingResult.unscheduledTasks result) in
  let suggestions :=
    if Nat.ltb 0 unscheduledCount then
      [Suggestion.mk
         (showNat unscheduledCount
            ++ " tasks couldn't be scheduled. Consider extending working hours or reducing task load.")%string
         extend_hours
         [("unscheduledCount"%string, unscheduledCount)]]
    else [] in
  overdueTasks <-
    filterM (fun t => match Task.deadline t with
                      | Some d => now <- newDate ;; ret (d <? now)
                      | None => ret false
                      end) tasks ;;
  ret (if Nat.ltb 0 (List.length overdueTasks) then
         suggestions ++
         [Suggestion.mk
            (showNat (List.length overdueTasks)
               ++ " tasks are overdue. Consider adjusting deadlines or priorities.")%string
            adjust_deadlines
            [("overdueCount"%string, List.length overdueTasks)]]
       else suggestions).

(** *** Main scheduling function *)

(** One turn of the [for (const task of flexibleTasks)] loop. *)
Definition scheduleStep (result : SchedulingResult.t) (task : Task.t)
  : M SchedulingResult.t :=
  schedulingAttempt <- scheduleTask task ;;
  match schedulingAttempt with
  | Scheduled start end_ confidence =>
      (* Add to existing events for next iterations *)
      pushExistingEvent
        (CalendarEvent.mk ("task-" ++ Task.id task)%string (Task.title task)
           start end_ type_task (Some (Task.id task)) true) ;;;
      ret (SchedulingResult.mk
             (SchedulingResult.success result)
             (SchedulingResult.scheduledTasks result
                ++ [ScheduledTask.mk (Task.id task) start end_ confidence])
             (SchedulingResult.unscheduledTasks result)
             (SchedulingResult.conflicts result)
             (SchedulingResult.suggestions result))
  | NotScheduled reason suggestedTime =>
      ret (SchedulingResult.mk
             (SchedulingResult.success result)
             (SchedulingResult.scheduledTasks result)
             (SchedulingResult.unscheduledTasks result ++ [Task.id task])
             (SchedulingResult.conflicts result
                ++ [Conflict.mk (Task.id task)
                      (match reason with
                       | Some ""%string | None => "Could not find suitable time slot"%string
                       | Some r => r
                       end)
                      suggestedTime])
             (SchedulingResult.suggestions result))
  end.

Fixpoint scheduleLoop (flexibleTasks : list Task.t) (result : SchedulingResult.t)
  : M SchedulingResult.t :=
  match flexibleTasks with
  | [] => ret result
  | task :: rest =>
      result' <- scheduleStep result task ;;
      scheduleLoop rest result'
  end.

Definition scheduleAllTasks : M SchedulingResult.t :=
  let result := SchedulingResult.mk true [] [] [] [] in
  (* Sort tasks by priority and deadline *)
  sortedTasks <- prioritizeTasks ;;
  (* Only schedule flexible tasks *)
  let flexibleTasks := filter Task.isFlexible sortedTasks in
  result <- scheduleLoop flexibleTasks result ;;
  (* [tasks] is the array that [prioritizeTasks] sorted in place *)
  tasks <- readTasks ;;
  suggestions <- generateSuggestions result tasks ;;
  ret (SchedulingResult.mk
         (Nat.eqb (List.length (SchedulingResult.unscheduledTasks result)) 0)
         (SchedulingResult.scheduledTasks result)
         (SchedulingResult.unscheduledTasks result)
         (SchedulingResult.conflicts result)
         suggestions).

End AutoScheduler.

(** ** Task utility functions ([taskUtils], listed after the task store)

    [sortTasksByScore] is given the array in the [tasksArray] cell and sorts
    a copy of it ([[...tasks].sort]). *)

Section TaskUtils.

Variable clock : nat -> Date.

Definition getTaskPriorityWeight (priority : Priority) : Z :=
  match priority with
  | high => 3
  | medium => 2
  | low => 1
  end.

Definition getTaskUrgency (task : Task.t) : M Z :=
  match Task.deadline task with
  | None => ret 0
  | Some deadline =>
      now <- newDate clock ;;
      let hoursUntilDeadline := (inject_Z (deadline - now) / inject_Z msPerHour)%Q in
      (* More urgent = higher number *)
      if Qltb hoursUntilDeadline 0 then ret 100        (* Overdue *)
      else if Qltb hoursUntilDeadline 24 then ret 50   (* Due today *)
      else if Qltb hoursUntilDeadline 48 then ret 25   (* Due tomorrow *)
      else if Qltb hoursUntilDeadline 168 then ret 10  (* Due this week *)
      else ret 1                                       (* Not urgent *)
  end.

Definition calculateTaskScore (task : Task.t) : M Z :=
  let priorityWeight := getTaskPriorityWeight (Task.priority task) in
  urgencyScore <- getTaskUrgency task ;;
  ret (priorityWeight * 10 + urgencyScore).

Definition sortTasksByScore : M (list Task.t) :=
  tasks <- readTasks ;;
  sortM (fun a b =>
           scoreB <- calculateTaskScore b ;;
           scoreA <- calculateTaskScore a ;;
           ret (scoreB - scoreA))
        tasks.

End TaskUtils.

(** ** The task store: [reorderTasks]

    [state.tasks] is modelled with [option] elements: [None] is the
    [undefined] that [reorderTasks] itself can put into the array. *)

(** [Array.prototype.splice(start, deleteCount, ...items)] for integer
    arguments: the removed elements and the array afterwards. *)
Definition splice {A} (l : list A) (start deleteCount : Z) (items : list A)
  : list A * list A :=
  let len := Z.of_nat (List.length l) in
  let actualStart := if start <? 0 then Z.max (len + start) 0 else Z.min start len in
  let actualDeleteCount := Z.min (Z.max deleteCount 0) (len - actualStart) in
  let i := Z.to_nat actualStart in
  let k := Z.to_nat actualDeleteCount in
  (firstn k (skipn i l), firstn i l ++ items ++ skipn (i + k) l).

Definition reorderTasks (stateTasks : list (option Task.t)) (fromIndex toIndex : Z)
  : list (option Task.t) :=
  (* const tasks = [...state.tasks] *)
  let '(removed, tasks) := splice stateTasks fromIndex 1 [] in
  (* const [movedTask] = ...: undefined when nothing was removed *)
  let movedTask := match removed with
                   | x :: _ => x
                   | [] => None
                   end in
  snd (splice tasks toIndex 0 [movedTask]).

(** * Vocabulary of the statements *)

(** ** Intervals and slots *)

(** Overlap of the half-open intervals [[s1, e1)] and [[s2, e2)]. *)
Definition overlap (s1 e1 s2 e2 : Date) : Prop := s1 < e2 /\ s2 < e1.

(** A slot for a task of [durationMinutes]: it lasts exactly that long, and
    the slot padded with the buffer conflicts with no event of [events]. *)
Definition slotClear (settings : CalendarSettings.t) (events : list CalendarEvent.t)
    (durationMinutes : Z) (start end_ : Date) : Prop :=
  end_ = addMinutes start durationMinutes
  /\ findConflicts events start
       (addMinutes start (durationMinutes + CalendarSettings.bufferTime settings))
     = [].

(** The number of the local day that contains [d]. *)
Definition dayIndex (tz : Z) (d : Date) : Z := (d + tz) / msPerDay.

(** The local time of day at [d]: milliseconds since local midnight. *)
Definition timeOfDay (tz : Z) (d : Date) : Z := (d + tz) mod msPerDay.

(** [slotWithin tz settings windowStart windowEnd durationMinutes slot]: the
    slot starts inside the search window and, padded with the buffer, ends
    inside it; it starts on a configured working day; and, where the working
    hours parse, it starts no earlier than the day's opening time and its
    padded end is no later than the day's closing time. *)
Definition slotWithin (tz : Z) (settings : CalendarSettings.t)
    (windowStart windowEnd : Date) (durationMinutes : Z) (slot : TimeSlot.t) : Prop :=
  let workingHours := CalendarSettings.workingHours settings in
  let paddedEnd :=
    addMinutes (TimeSlot.start slot)
      (durationMinutes + CalendarSettings.bufferTime settings) in
  windowStart <= TimeSlot.start slot
  /\ paddedEnd <= windowEnd
  /\ In (getDay tz (TimeSlot.start slot)) (WorkingHours.daysOfWeek workingHours)
  /\ (forall opening,
        parseTime tz (TimeSlot.start slot) (WorkingHours.start workingHours)
        = Some opening -> opening <= TimeSlot.start slot)
  /\ (forall closing,
        parseTime tz (TimeSlot.start slot) (WorkingHours.end_ workingHours)
        = Some closing -> paddedEnd <= closing).

(** ** Frames: what a step may change, and when two runs agree *)

(** [w'] has the arrays of [w]; only the count of clock reads may differ. *)
Definition sameArrays (w w' : World) : Prop :=
  existingEvents w' = existingEvents w /\ tasksArray w' = tasksArray w.

(** A computation that leaves both arrays as they are. *)
Definition clockOnly {A} (c : M A) : Prop := forall w, sameArrays w (snd (c w)).

(** Every read of [clock] returns [now]. *)
Definition frozen (clock : nat -> Date) (now : Date) : Prop :=
  forall k, clock k = now.

(** Two worlds with the same arrays; the read counters may differ. *)
Definition sameStore (w1 w2 : World) : Prop :=
  existingEvents w1 = existingEvents w2 /\ tasksArray w1 = tasksArray w2.

(** Two computations that, run on worlds with the same arrays, return the
    same value and leave the same arrays. *)
Definition agree {A} (c1 c2 : M A) : Prop :=
  forall w1 w2, sameStore w1 w2 ->
    fst (c1 w1) = fst (c2 w2) /\ sameStore (snd (c1 w1)) (snd (c2 w2)).

(** ** Attempts and the trace of a pass *)

(** The three ways [scheduleTask] can end for [task] against the conflict set
    [events]: a dependency is missing; the search over some window found no
    slot; or the placement is one of the slots the search found. *)
Inductive AttemptSpec (tz : Z) (settings : CalendarSettings.t)
    (events : list CalendarEvent.t) (task : Task.t) : SchedulingAttempt -> Prop :=
| attempt_missing :
    fst (checkDependencies events task) = false ->
    AttemptSpec tz settings events task
      (NotScheduled
         (Some ("Dependencies not satisfied: "
                  ++ String.concat ", " (snd (checkDependencies events task)))%string)
         None)
| attempt_no_slot suggested start end_ :
    fst (checkDependencies events task) = true ->
    findAvailableSlots tz settings events start end_ (Task.estimatedDuration task) = [] ->
    AttemptSpec tz settings events task
      (NotScheduled (Some "No available time slots found") (Some suggested))
| attempt_placed slot start end_ :
    fst (checkDependencies events task) = true ->
    In slot (findAvailableSlots tz settings events start end_
               (Task.estimatedDuration task)) ->
    AttemptSpec tz settings events task
      (Scheduled (TimeSlot.start slot) (TimeSlot.end_ slot)
         (calculateSchedulingConfidence tz slot task)).

(** The event [scheduleAllTasks] pushes for a placed task. *)
Definition taskEvent (task : Task.t) (start end_ : Date) : CalendarEvent.t :=
  CalendarEvent.mk ("task-" ++ Task.id task)%string (Task.title task)
    start end_ type_task (Some (Task.id task)) true.

(** A task together with what its attempt returned, and what one turn of the
    loop appends for it to [scheduledTasks], [unscheduledTasks], [conflicts]
    and [this.existingEvents]. *)
Definition Outcome : Type := Task.t * SchedulingAttempt.

Definition placementOf (o : Outcome) : list ScheduledTask.t :=
  match snd o with
  | Scheduled start end_ confidence =>
      [ScheduledTask.mk (Task.id (fst o)) start end_ confidence]
  | NotScheduled _ _ => []
  end.

Definition unscheduledOf (o : Outcome) : list string :=
  match snd o with
  | Scheduled _ _ _ => []
  | NotScheduled _ _ => [Task.id (fst o)]
  end.

Definition conflictOf (o : Outcome) : list Conflict.t :=
  match snd o with
  | Scheduled _ _ _ => []
  | NotScheduled reason suggestedTime =>
      [Conflict.mk (Task.id (fst o))
         (match reason with
          | Some ""%string | None => "Could not find suitable time slot"%string
          | Some r => r
          end)
         suggestedTime]
  end.

Definition eventOf (o : Outcome) : list CalendarEvent.t :=
  match snd o with
  | Scheduled start end_ _ => [taskEvent (fst o) start end_]
  | NotScheduled _ _ => []
  end.

(** [result] after the loop has recorded the outcomes [outs]. *)
Definition record (result : SchedulingResult.t) (outs : list Outcome)
  : SchedulingResult.t :=
  SchedulingResult.mk
    (SchedulingResult.success result)
    (SchedulingResult.scheduledTasks result ++ flat_map placementOf outs)
    (SchedulingResult.unscheduledTasks result ++ flat_map unscheduledOf outs)
    (SchedulingResult.conflicts result ++ flat_map conflictOf outs)
    (SchedulingResult.suggestions result).

(** [Pass events outs events']: starting with the conflict set [events], the
    attempts [outs] are made in order, each against the conflict set as the
    earlier commits left it, and [events'] is the conflict set at the end. *)
Inductive Pass (tz : Z) (settings : CalendarSettings.t)
  : list CalendarEvent.t -> list Outcome -> list CalendarEvent.t -> Prop :=
| pass_done events : Pass tz settings events [] events
| pass_attempt events task attempt outs events' :
    AttemptSpec tz settings events task attempt ->
    Pass tz settings (events ++ eventOf (task, attempt)) outs events' ->
    Pass tz settings events ((task, attempt) :: outs) events'.


(** [t.deadline && t.deadline < now]: the overdue test of
    [generateSuggestions] for one reading [now] of the clock. *)
Definition deadlinePassed (now : Date) (t : Task.t) : bool :=
  match Task.deadline t with
  | Some d => d <? now
  | None => false
  end.

(** The suggestions for [failed] unscheduled and [overdue] overdue tasks. *)
Definition suggestionsFor (failed overdue : nat) : list Suggestion.t :=
  (if Nat.ltb 0 failed then
     [Suggestion.mk
        (showNat failed
           ++ " tasks couldn't be scheduled. Consider extending working hours or reducing task load.")%string
        extend_hours [("unscheduledCount", failed)]]
   else [])
  ++ (if Nat.ltb 0 overdue then
        [Suggestion.mk
           (showNat overdue
              ++ " tasks are overdue. Consider adjusting deadlines or priorities.")%string
           adjust_deadlines [("overdueCount", overdue)]]
      else []).

(** The list without its element at index [i], and the list with [x] put in
    at index [i]. *)
Definition removeAt {A} (i : nat) (l : list A) : list A :=
  firstn i l ++ skipn (S i) l.

Definition insertAt {A} (i : nat) (x : A) (l : list A) : list A :=
  firstn i l ++ x :: skipn i l.

(** ** Commitments *)

(** [CommitsFree pool events placements]: each placement belongs to a task of
    [pool], lasts exactly the task's estimated duration, and at the moment it
    is committed overlaps no event of the conflict set, which is [events]
    followed by the events of the placements committed before it. *)
Inductive CommitsFree (pool : list Task.t)
  : list CalendarEvent.t -> list ScheduledTask.t -> Prop :=
| free_nil events : CommitsFree pool events []
| free_cons events task p placements :
    In task pool ->
    ScheduledTask.taskId p = Task.id task ->
    ScheduledTask.end_ p
    = ScheduledTask.start p + Task.estimatedDuration task * msPerMinute ->
    (forall e, In e events ->
       ~ overlap (ScheduledTask.start p) (ScheduledTask.end_ p)
           (CalendarEvent.start e) (CalendarEvent.end_ e)) ->
    CommitsFree pool
      (events ++ [taskEvent task (ScheduledTask.start p) (ScheduledTask.end_ p)])
      placements ->
    CommitsFree pool events (p :: placements).

(** [paddedClear settings pool events q]: the placement [q] belongs to a task
    of [pool], lasts as long as that task, and, padded with the buffer at its
    end, conflicts with none of [events]. *)
Definition paddedClear (settings : CalendarSettings.t) (pool : list Task.t)
    (events : list CalendarEvent.t) (q : ScheduledTask.t) : Prop :=
  exists task,
    In task pool
    /\ ScheduledTask.end_ q
       = addMinutes (ScheduledTask.start q) (Task.estimatedDuration task)
    /\ forall e, In e events ->
         conflictsWith (ScheduledTask.start q)
           (addMinutes (ScheduledTask.start q)
              (Task.estimatedDuration task + CalendarSettings.bufferTime settings))
           e = false.

(** [keepsClear settings pool p q], for a placement [q] committed after
    [p]: [p] lasts as long as its task, and [q], padded with the buffer at its
    end, does not conflict with the event pushed for [p]. *)
Definition keepsClear (settings : CalendarSettings.t) (pool : list Task.t)
    (p q : ScheduledTask.t) : Prop :=
  exists tp,
    In tp pool
    /\ ScheduledTask.end_ p
       = addMinutes (ScheduledTask.start p) (Task.estimatedDuration tp)
    /\ paddedClear settings pool
         [taskEvent tp (ScheduledTask.start p) (ScheduledTask.end_ p)] q.

(** ** The ranking in the words of the specification *)

(** The ranking score in the words of the specification, for one reference
    instant [now] and the batch [batch]. *)
Definition priorityWeightSpec (p : Priority) : Z :=
  match p with high => 3 | medium => 2 | low => 1 end.

Definition urgencySpec (now : Date) (deadline : option Date) : Z :=
  match deadline with
  | None => 0                                           (* no deadline *)
  | Some d =>
      if d <? now then 10                               (* deadline has passed *)
      else if d - now <? 24 * msPerHour then 8          (* due within 24h *)
      else if d - now <? 48 * msPerHour then 6          (* within 48h *)
      else if d - now <? 7 * 24 * msPerHour then 4      (* within 7 days *)
      else 2
  end.

Definition dependentsSpec (batch : list Task.t) (t : Task.t) : Z :=
  Z.of_nat
    (List.length
       (filter (fun u => match Task.dependencies u with
                         | Some deps => if in_dec string_dec (Task.id t) deps
                                        then true else false
                         | None => false
                         end) batch)).

Definition rankingScore (now : Date) (batch : list Task.t) (t : Task.t) : Z :=
  10 * priorityWeightSpec (Task.priority t)
  + 5 * urgencySpec now (Task.deadline t)
  + 3 * dependentsSpec batch t.

(** A stable insertion sort with a comparator without effects. *)
Fixpoint insertBy {A} (compare : A -> A -> Z) (x : A) (l : list A) : list A :=
  match l with
  | [] => [x]
  | y :: l' => if compare x y >? 0 then y :: insertBy compare x l'
               else x :: y :: l'
  end.

Fixpoint sortBy {A} (compare : A -> A -> Z) (l : list A) : list A :=
  match l with
  | [] => []
  | x :: l' => insertBy compare x (sortBy compare l')
  end.

(** ** The confidence without its clamp *)

(** The base confidence of 0.7 with its three adjustments, as one sum: 0.2
    more for a high-priority task that starts before noon, 0.1 more for a
    deadline over 48 hours after the start, 0.1 less for a start before 08:00
    or from 19:00 on.  No clamp is applied. *)
Definition confidenceBeforeClamp (tz : Z) (start : Date) (task : Task.t) : Q :=
  let hour := getHours tz start in
  ((7 # 10)
   + (match Task.priority task with
      | high => if hour <? 12 then 2 # 10 else 0
      | _ => 0
      end)
   + (match Task.deadline task with
      | Some deadline => if 48 * msPerHour <? deadline - start then 1 # 10 else 0
      | None => 0
      end)
   - (if (hour <? 8) || (18 <? hour) then 1 # 10 else 0))%Q.

(** ** Example data *)

(** Monday 1 January 2024, 00:00 UTC. *)
Definition monday : Date := 1704067200000.

Definition officeHours (days : list Z) : WorkingHours.t :=
  WorkingHours.mk "09:00" "17:00" days.

(** Working hours 09:00-17:00 on [days], buffer of [buffer] minutes. *)
Definition officeSettings (days : list Z) (buffer : Z) : CalendarSettings.t :=
  CalendarSettings.mk (officeHours days) 60 15 buffer 0.

Definition weekdays : list Z := [1; 2; 3; 4; 5].

(** A clock that returns [now] at every read. *)
Definition frozenAt (now : Date) : nat -> Date := fun _ => now.

(** A flexible task without deadline and dependencies, created at the epoch. *)
Definition plainTask (id : string) (priority : Priority) (minutes : Z) : Task.t :=
  Task.mk id id priority minutes None 0 None true.

(** Monday 13:00, a high and a low priority task of 30 minutes each. *)
Definition mondayAfternoon : Date := monday + 13 * msPerHour.

Definition twoTasks : World :=
  mkWorld [] [plainTask "B" low 30; plainTask "A" high 30] 0.

(** A clock that advances by one millisecond at every read. *)
Definition tickingFrom (t0 : Date) : nat -> Date := fun k => t0 + Z.of_nat k.

(** * Properties *)

(** ** The embedding on small inputs *)

Example parseInt_examples :
  parseInt (Some "09") = Some 9
  /\ parseInt (Some "17") = Some 17
  /\ parseInt (Some " -12px") = Some (-12)
  /\ parseInt (Some "0x1f") = Some 31
  /\ parseInt (Some "") = None
  /\ parseInt None = None.
Proof. repeat split. Qed.

Example monday_is_a_monday : getDay 0 monday = 1 /\ getHours 0 mondayAfternoon = 13.
Proof. split; reflexivity. Qed.

(** Monday 08:00, working hours 09:00-17:00 on weekdays, buffer 5 minutes, a
    high and a low priority task of 60 minutes: the high one is placed at
    09:00-10:00, the low one at 10:15-11:15 (minutes counted from Monday
    00:00). *)
Example two_tasks_on_a_free_monday :
  let result :=
    fst (scheduleAllTasks 0 (frozenAt (monday + 8 * msPerHour))
           (officeSettings weekdays 5)
           (mkWorld [] [plainTask "H" high 60; plainTask "L" low 60] 0)) in
  SchedulingResult.success result = true
  /\ map (fun p => (ScheduledTask.taskId p,
                    (ScheduledTask.start p - monday) / msPerMinute,
                    (ScheduledTask.end_ p - monday) / msPerMinute))
       (SchedulingResult.scheduledTasks result)
     = [("H", 540, 600); ("L", 615, 675)].
Proof. vm_compute. split; reflexivity. Qed.

(** The whole of Monday is blocked and the task is due within a day: the
    search finds nothing and suggests Tuesday 09:00. *)
Example fully_booked_day :
  let offsite := CalendarEvent.mk "e1" "Offsite" monday (monday + 24 * msPerHour)
                   type_block None false in
  let task := Task.mk "T" "Tax return" medium 60
                (Some (monday + 32 * msPerHour)) 0 None true in
  let result :=
    fst (scheduleAllTasks 0 (frozenAt (monday + 8 * msPerHour))
           (officeSettings weekdays 5) (mkWorld [offsite] [task] 0)) in
  SchedulingResult.scheduledTasks result = []
  /\ SchedulingResult.conflicts result
     = [Conflict.mk "T" "No available time slots found"
          (Some (monday + 33 * msPerHour))].
Proof. vm_compute. split; reflexivity. Qed.

(** ** The conflict test *)

Lemma isWithinInterval_spec (date start end_ : Date) :
  isWithinInterval date start end_ = true <->
  Z.min start end_ <= date <= Z.max start end_.
Proof.
  unfold isWithinInterval.
  rewrite andb_true_iff, !Z.leb_le. tauto.
Qed.

(** On well-formed intervals the four [isWithinInterval] tests amount to the
    overlap of the two CLOSED intervals. *)
Lemma conflictsWith_closed (start end_ : Date) (event : CalendarEvent.t) :
  start <= end_ ->
  CalendarEvent.start event <= CalendarEvent.end_ event ->
  (conflictsWith start end_ event = true <->
   start <= CalendarEvent.end_ event /\ CalendarEvent.start event <= end_).
Proof.
  intros Hslot Hevent. unfold conflictsWith.
  rewrite !orb_true_iff, !isWithinInterval_spec. lia.
Qed.

(** Whatever the order of the ends, a candidate without conflict shares no
    point with the event, even when the candidate is shortened at its end. *)
Lemma conflictsWith_false_disjoint (start end_ cut : Date) (event : CalendarEvent.t) :
  conflictsWith start end_ event = false ->
  cut <= end_ ->
  ~ (start < CalendarEvent.end_ event /\ CalendarEvent.start event < cut).
Proof.
  unfold conflictsWith. intros Hno Hcut [H1 H2].
  apply not_true_iff_false in Hno. apply Hno.
  rewrite !orb_true_iff, !isWithinInterval_spec. lia.
Qed.

Lemma findConflicts_nil (events : list CalendarEvent.t) (start end_ : Date) :
  findConflicts events start end_ = [] <->
  forall event, In event events -> conflictsWith start end_ event = false.
Proof.
  unfold findConflicts. induction events as [|e events IH]; simpl.
  - split; [intros _ ev [] | reflexivity].
  - destruct (conflictsWith start end_ e) eqn:He.
    + split; [discriminate|]. intros H.
      rewrite (H e (or_introl eq_refl)) in He. discriminate.
    + rewrite IH. split.
      * intros H ev [<-|Hin]; auto.
      * intros H ev Hin. apply H. now right.
Qed.

(** C2 as stated fails: a candidate that ends exactly when a meeting starts
    is reported as a conflict, although the half-open intervals are disjoint. *)
Lemma touching_intervals_conflict :
  let meeting := CalendarEvent.mk "m1" "Stand-up" 600000 1200000 type_meeting None false in
  findConflicts [meeting] 0 600000 = [meeting]
  /\ ~ (0 < CalendarEvent.end_ meeting /\ CalendarEvent.start meeting < 600000).
Proof.
  split; [reflexivity | simpl; lia].
Qed.

(** C2 (amended): [findConflicts] returns exactly the events whose CLOSED
    interval [start, end] meets the closed candidate interval, i.e.
    [s1 <= e2] and [s2 <= e1]; intervals that merely touch do conflict. *)
Theorem findConflicts_closed_overlap
    (events : list CalendarEvent.t) (start end_ : Date) (event : CalendarEvent.t) :
  start <= end_ ->
  CalendarEvent.start event <= CalendarEvent.end_ event ->
  (In event (findConflicts events start end_) <->
   In event events
   /\ start <= CalendarEvent.end_ event /\ CalendarEvent.start event <= end_).
Proof.
  intros Hslot Hevent. unfold findConflicts.
  rewrite filter_In, (conflictsWith_closed _ _ _ Hslot Hevent). tauto.
Qed.

Lemma findConflicts_closed_overlap_witness :
  let meeting := CalendarEvent.mk "m1" "Stand-up" 600000 1200000 type_meeting None false in
  In meeting (findConflicts [meeting] 0 600000) <->
  In meeting [meeting] /\ 0 <= 1200000 /\ 600000 <= 600000.
Proof.
  exact (findConflicts_closed_overlap
           [CalendarEvent.mk "m1" "Stand-up" 600000 1200000 type_meeting None false]
           0 600000
           (CalendarEvent.mk "m1" "Stand-up" 600000 1200000 type_meeting None false)
           ltac:(lia) ltac:(simpl; lia)).
Defined.

(** ** The loops terminate within their fuel

    More fuel never changes what the two slot searches return, so the
    [O] branches of the loops are never what ends a search. *)

Lemma findSlotsLoop_fuel (events : list CalendarEvent.t)
    (end_ : Date) (durationMinutes slotDuration : Z) (fuel : nat) :
  forall (current : Date) (fuel' : nat),
    end_ < current \/ (Z.to_nat ((end_ - current) / slotStep) < fuel)%nat ->
    (fuel <= fuel')%nat ->
    findSlotsLoop fuel' events end_ durationMinutes slotDuration current
    = findSlotsLoop fuel events end_ durationMinutes slotDuration current.
Proof.
  induction fuel as [|fuel IH]; intros current fuel' Hfuel Hle.
  - destruct Hfuel as [Hpast|Hlt]; [|lia].
    destruct fuel'; simpl; [reflexivity|].
    destruct (current <=? end_) eqn:E; [apply Z.leb_le in E; lia | reflexivity].
  - destruct fuel' as [|fuel']; [lia|]. simpl.
    destruct (current <=? end_) eqn:E; [|reflexivity].
    destruct (addMinutes current slotDuration >? end_); [reflexivity|].
    f_equal. apply IH; [|lia].
    apply Z.leb_le in E.
    destruct Hfuel as [Hpast|Hlt]; [lia|].
    unfold slotStep in *.
    destruct (Z.to_nat ((end_ - current) / (15 * 60 * 1000))) eqn:Hq.
    + left. Z.div_mod_to_equations. lia.
    + right. Z.div_mod_to_equations. lia.
Qed.

(** The loop equation of [findSlotsInRange]: one turn of the [while] loop,
    then the same search from the next 15-minute mark. *)
Lemma findSlotsInRange_unfold settings (events : list CalendarEvent.t)
    (start end_ : Date) (durationMinutes : Z) :
  findSlotsInRange settings events start end_ durationMinutes =
  if start <=? end_ then
    let slotEnd :=
      addMinutes start (durationMinutes + CalendarSettings.bufferTime settings) in
    if slotEnd >? end_ then []
    else
      (match findConflicts events start slotEnd with
       | [] => [TimeSlot.mk start (addMinutes start durationMinutes)
                  durationMinutes true]
       | _ :: _ => []
       end)
      ++ findSlotsInRange settings events (start + slotStep) end_ durationMinutes
  else [].
Proof.
  unfold findSlotsInRange at 1. cbn [findSlotsLoop].
  destruct (start <=? end_) eqn:E; [|reflexivity].
  cbv zeta.
  destruct (addMinutes start _ >? end_); [reflexivity|].
  f_equal. unfold findSlotsInRange.
  apply Z.leb_le in E.
  destruct (Z_lt_le_dec end_ (start + slotStep)) as [Hlast|Hmore].
  - rewrite (findSlotsLoop_fuel _ _ _ _ 0); [|left; lia|lia].
    symmetry. apply (findSlotsLoop_fuel _ _ _ _ 0); [left; lia|lia].
  - apply findSlotsLoop_fuel; [right|];
      unfold slotStep in *; Z.div_mod_to_equations; lia.
Qed.

Lemma startOfNextDay_dayIndex (tz : Z) (d : Date) :
  dayIndex tz (startOfNextDay tz d) = dayIndex tz d + 1
  /\ d < startOfNextDay tz d.
Proof.
  unfold dayIndex, startOfNextDay, startOfLocalDay, msPerDay.
  Z.div_mod_to_equations. lia.
Qed.

Lemma findAvailableSlotsLoop_fuel tz settings (events : list CalendarEvent.t)
    (end_ : Date) (durationMinutes : Z) (fuel : nat) :
  forall (current : Date) (fuel' : nat),
    end_ <= current
    \/ (Z.to_nat (dayIndex tz end_ - dayIndex tz current) < fuel)%nat ->
    (fuel <= fuel')%nat ->
    findAvailableSlotsLoop tz settings fuel' events end_ durationMinutes current
    = findAvailableSlotsLoop tz settings fuel events end_ durationMinutes current.
Proof.
  induction fuel as [|fuel IH]; intros current fuel' Hfuel Hle.
  - destruct Hfuel as [Hpast|Hlt]; [|lia].
    destruct fuel'; simpl; [reflexivity|].
    destruct (current <? end_) eqn:E; [apply Z.ltb_lt in E; lia | reflexivity].
  - destruct fuel' as [|fuel']; [lia|]. cbn [findAvailableSlotsLoop].
    destruct (current <? end_) eqn:E; [|reflexivity].
    cbv zeta. f_equal. apply IH; [|lia].
    apply Z.ltb_lt in E.
    destruct (startOfNextDay_dayIndex tz current) as [Hidx Hnext].
    destruct Hfuel as [Hpast|Hlt]; [lia|].
    rewrite Hidx.
    destruct (Z_le_gt_dec end_ (startOfNextDay tz current)) as [Hlast|Hmore];
      [now left | right].
    assert (dayIndex tz current + 1 <= dayIndex tz end_).
    { rewrite <- Hidx. unfold dayIndex, msPerDay.
      apply Z.div_le_mono; lia. }
    lia.
Qed.

Lemma findAvailableSlotsLoop_enough tz settings (events : list CalendarEvent.t)
    (end_ : Date) (durationMinutes : Z) (current : Date) (fuel1 fuel2 : nat) :
  (Z.to_nat (dayIndex tz end_ - dayIndex tz current) < fuel1)%nat ->
  (Z.to_nat (dayIndex tz end_ - dayIndex tz current) < fuel2)%nat ->
  findAvailableSlotsLoop tz settings fuel1 events end_ durationMinutes current
  = findAvailableSlotsLoop tz settings fuel2 events end_ durationMinutes current.
Proof.
  intros H1 H2. destruct (Nat.le_ge_cases fuel1 fuel2).
  - symmetry. apply findAvailableSlotsLoop_fuel; [now right | assumption].
  - apply findAvailableSlotsLoop_fuel; [now right | assumption].
Qed.

(** The loop equation of [findAvailableSlots]: the slots of the current day,
    then the same search from the next local midnight. *)
Lemma findAvailableSlots_unfold tz settings (events : list CalendarEvent.t)
    (start end_ : Date) (durationMinutes : Z) :
  findAvailableSlots tz settings events start end_ durationMinutes =
  if start <? end_ then
    let dayEnd := endOfDay tz start in
    let searchEnd := if dayEnd <? end_ then dayEnd else end_ in
    (match getWorkingHoursForDate tz settings start with
     | Some workingHours =>
         findSlotsInRange settings events
           (match parseTime tz start (WorkingHours.start workingHours) with
            | Some ws => if ws >? start then ws else start
            | None => start
            end)
           (match parseTime tz start (WorkingHours.end_ workingHours) with
            | Some we => if we <? searchEnd then we else searchEnd
            | None => searchEnd
            end)
           durationMinutes
     | None => []
     end)
    ++ findAvailableSlots tz settings events (startOfNextDay tz start) end_
         durationMinutes
  else [].
Proof.
  unfold findAvailableSlots at 1.
  set (fuel := S (Z.to_nat ((end_ - start) / msPerDay))).
  change (findAvailableSlotsLoop tz settings (S fuel) events end_
            durationMinutes start)
    with (if start <? end_ then
            (match getWorkingHoursForDate tz settings start with
             | Some workingHours =>
                 findSlotsInRange settings events
                   (match parseTime tz start (WorkingHours.start workingHours) with
                    | Some ws => if ws >? start then ws else start
                    | None => start
                    end)
                   (match parseTime tz start (WorkingHours.end_ workingHours) with
                    | Some we =>
                        if we <? (if endOfDay tz start <? end_
                                  then endOfDay tz start else end_)
                        then we
                        else (if endOfDay tz start <? end_
                              then endOfDay tz start else end_)
                    | None => if endOfDay tz start <? end_
                              then endOfDay tz start else end_
                    end)
                   durationMinutes
             | None => []
             end)
            ++ findAvailableSlotsLoop tz settings fuel events end_
                 durationMinutes (startOfNextDay tz start)
          else []).
  subst fuel.
  destruct (start <? end_) eqn:E; [|reflexivity].
  cbv zeta. f_equal. unfold findAvailableSlots.
  apply Z.ltb_lt in E.
  destruct (startOfNextDay_dayIndex tz start) as [Hidx Hnext].
  apply findAvailableSlotsLoop_enough; rewrite ?Hidx;
    unfold dayIndex, msPerDay in *; Z.div_mod_to_equations; lia.
Qed.

(** ** Every slot the search returns is clear of the conflict set *)

Lemma findSlotsLoop_clear settings events end_ durationMinutes fuel :
  forall current slot,
    In slot (findSlotsLoop fuel events end_ durationMinutes
               (durationMinutes + CalendarSettings.bufferTime settings) current) ->
    slotClear settings events durationMinutes (TimeSlot.start slot) (TimeSlot.end_ slot).
Proof.
  induction fuel as [|fuel IH]; intros current slot Hin; simpl in Hin; [easy|].
  destruct (current <=? end_); [|easy].
  destruct (addMinutes current _ >? end_); [easy|].
  apply in_app_or in Hin. destruct Hin as [Hin|Hin]; [|eauto].
  destruct (findConflicts events current _) eqn:Hc; [|easy].
  destruct Hin as [<-|[]]. split; [reflexivity | exact Hc].
Qed.

Lemma findAvailableSlotsLoop_clear tz settings events end_ durationMinutes fuel :
  forall current slot,
    In slot (findAvailableSlotsLoop tz settings fuel events end_ durationMinutes current) ->
    slotClear settings events durationMinutes (TimeSlot.start slot) (TimeSlot.end_ slot).
Proof.
  induction fuel as [|fuel IH]; intros current slot Hin;
    cbn [findAvailableSlotsLoop] in Hin; [easy|].
  destruct (current <? end_); [|easy].
  apply in_app_or in Hin. destruct Hin as [Hin|Hin]; [|eauto].
  destruct (getWorkingHoursForDate tz settings current); [|easy].
  unfold findSlotsInRange in Hin.
  eapply findSlotsLoop_clear; eassumption.
Qed.

Lemma findAvailableSlots_clear tz settings events start end_ durationMinutes slot :
  In slot (findAvailableSlots tz settings events start end_ durationMinutes) ->
  slotClear settings events durationMinutes (TimeSlot.start slot) (TimeSlot.end_ slot).
Proof. apply findAvailableSlotsLoop_clear. Qed.

Lemma selectBestTimeSlot_In tz events task rest :
  forall first, In (selectBestTimeSlot tz events first rest task) (first :: rest).
Proof.
  unfold selectBestTimeSlot.
  induction rest as [|slot rest IH]; intros first; simpl; [now left|].
  match goal with |- context [if ?c then _ else _] => destruct c end.
  - specialize (IH slot). simpl in IH. tauto.
  - specialize (IH first). simpl in IH. tauto.
Qed.

(** ** What a single attempt does to the store *)

Lemma sameArrays_refl w : sameArrays w w.
Proof. split; reflexivity. Qed.

Lemma sameArrays_trans w1 w2 w3 :
  sameArrays w1 w2 -> sameArrays w2 w3 -> sameArrays w1 w3.
Proof. unfold sameArrays. intros [-> ->] [-> ->]. split; reflexivity. Qed.

Lemma scheduleTask_spec tz clock settings task w :
  AttemptSpec tz settings (existingEvents w) task
    (fst (scheduleTask tz clock settings task w))
  /\ sameArrays w (snd (scheduleTask tz clock settings task w)).
Proof.
  unfold scheduleTask, bind, readExistingEvents, calculateSchedulingWindow,
    suggestAlternativeTime, newDate, ret. simpl.
  destruct (fst (checkDependencies (existingEvents w) task)) eqn:Hdeps; simpl.
  - match goal with
    | |- context [findAvailableSlots ?tz ?st ?ev ?s ?e ?d] =>
        destruct (findAvailableSlots tz st ev s e d) as [|first rest] eqn:Hslots
    end; simpl.
    + split; [|split; reflexivity].
      eapply attempt_no_slot; eassumption.
    + split; [|split; reflexivity].
      eapply attempt_placed; [assumption|].
      rewrite Hslots. apply selectBestTimeSlot_In.
  - split; [|split; reflexivity]. now apply attempt_missing.
Qed.

(** ** The pass as a trace of attempts *)

Lemma record_nil result : record result [] = result.
Proof.
  destruct result. unfold record. simpl. now rewrite !app_nil_r.
Qed.

Lemma record_cons result o outs :
  record result (o :: outs) = record (record result [o]) outs.
Proof.
  unfold record. cbn [flat_map SchedulingResult.success
    SchedulingResult.scheduledTasks SchedulingResult.unscheduledTasks
    SchedulingResult.conflicts SchedulingResult.suggestions].
  rewrite !app_nil_r, !app_assoc. reflexivity.
Qed.

Lemma scheduleStep_eq tz clock settings result task w :
  scheduleStep tz clock settings result task w =
  let a := scheduleTask tz clock settings task w in
  (record result [(task, fst a)],
   mkWorld (existingEvents (snd a) ++ eventOf (task, fst a))
     (tasksArray (snd a)) (clockReads (snd a))).
Proof.
  unfold scheduleStep, bind.
  destruct (scheduleTask tz clock settings task w) as [[start end_ c|reason st] w'];
    unfold record, pushExistingEvent, ret; simpl.
  - now rewrite !app_nil_r.
  - rewrite !app_nil_r. now destruct w'.
Qed.

Lemma scheduleLoop_pass tz clock settings flexibleTasks :
  forall result w,
  exists outs,
    map fst outs = flexibleTasks
    /\ fst (scheduleLoop tz clock settings flexibleTasks result w) = record result outs
    /\ Pass tz settings (existingEvents w) outs
         (existingEvents (snd (scheduleLoop tz clock settings flexibleTasks result w)))
    /\ tasksArray (snd (scheduleLoop tz clock settings flexibleTasks result w))
       = tasksArray w.
Proof.
  induction flexibleTasks as [|task rest IH]; intros result w.
  - exists []. simpl. rewrite record_nil. repeat split. constructor.
  - cbn [scheduleLoop]. unfold bind. rewrite scheduleStep_eq. cbv zeta.
    destruct (scheduleTask_spec tz clock settings task w) as [Hspec [Hev Htasks]].
    set (a := scheduleTask tz clock settings task w) in *.
    rewrite Hev, Htasks.
    match goal with
    | |- context [scheduleLoop _ _ _ rest ?r ?w1] =>
        destruct (IH r w1) as (outs & Hmap & Hres & Hpass & Harr)
    end.
    exists ((task, fst a) :: outs). simpl in *.
    rewrite Hmap, Hres, Harr, <- record_cons.
    repeat split. now constructor.
Qed.

(** ** Steps that only read the clock *)

Lemma clockOnly_ret {A} (a : A) : clockOnly (ret a).
Proof. intros w. apply sameArrays_refl. Qed.

Lemma clockOnly_bind {A B} (c : M A) (k : A -> M B) :
  clockOnly c -> (forall a, clockOnly (k a)) -> clockOnly (bind c k).
Proof.
  intros Hc Hk w. unfold bind.
  specialize (Hc w). destruct (c w) as [a w1]. simpl in Hc.
  eapply sameArrays_trans; [exact Hc | apply Hk].
Qed.

Lemma clockOnly_newDate clock : clockOnly (newDate clock).
Proof. intros w. split; reflexivity. Qed.

Lemma clockOnly_if {A} (b : bool) (c1 c2 : M A) :
  clockOnly c1 -> clockOnly c2 -> clockOnly (if b then c1 else c2).
Proof. now destruct b. Qed.

Create HintDb clock.
#[local] Hint Resolve clockOnly_ret clockOnly_newDate : clock.
#[local] Hint Extern 3 (clockOnly (bind _ _)) =>
  apply clockOnly_bind; [|intros ?] : clock.
#[local] Hint Extern 3 (clockOnly (if _ then _ else _)) =>
  apply clockOnly_if : clock.

Lemma clockOnly_getUrgencyScore clock task : clockOnly (getUrgencyScore clock task).
Proof. unfold getUrgencyScore. destruct (Task.deadline task); auto 10 with clock. Qed.

Lemma clockOnly_compareTasks clock tasks a b :
  clockOnly (compareTasks clock tasks a b).
Proof.
  unfold compareTasks.
  auto using clockOnly_getUrgencyScore with clock.
Qed.

Lemma clockOnly_insertM {A} (compare : A -> A -> M Z) (x : A) (l : list A) :
  (forall a b, clockOnly (compare a b)) -> clockOnly (insertM compare x l).
Proof.
  intros Hc. induction l as [|y l IH]; simpl; auto 10 with clock.
Qed.

Lemma clockOnly_sortM {A} (compare : A -> A -> M Z) (l : list A) :
  (forall a b, clockOnly (compare a b)) -> clockOnly (sortM compare l).
Proof.
  intros Hc. induction l as [|x l IH]; simpl; auto with clock.
  apply clockOnly_bind; [assumption|]. intros s. now apply clockOnly_insertM.
Qed.

Lemma clockOnly_filterM {A} (p : A -> M bool) (l : list A) :
  (forall a, clockOnly (p a)) -> clockOnly (filterM p l).
Proof.
  intros Hp. induction l as [|x l IH]; simpl; auto 10 with clock.
Qed.

Lemma clockOnly_generateSuggestions clock result tasks :
  clockOnly (generateSuggestions clock result tasks).
Proof.
  unfold generateSuggestions.
  apply clockOnly_bind; [|auto with clock].
  apply clockOnly_filterM. intros t. destruct (Task.deadline t); auto with clock.
Qed.

(** [prioritizeTasks] overwrites the [tasks] array with what it returns and
    leaves the events array alone. *)
Lemma prioritizeTasks_store clock w :
  existingEvents (snd (prioritizeTasks clock w)) = existingEvents w
  /\ tasksArray (snd (prioritizeTasks clock w)) = fst (prioritizeTasks clock w).
Proof.
  unfold prioritizeTasks, bind, readTasks, writeTasks, ret.
  pose proof (clockOnly_sortM (compareTasks clock (tasksArray w)) (tasksArray w)
                (clockOnly_compareTasks clock (tasksArray w)) w) as [Hev _].
  destruct (sortM _ _ w) as [sorted w1]. simpl in *. auto.
Qed.

Lemma scheduleAllTasks_eq tz clock settings w :
  scheduleAllTasks tz clock settings w =
  let p := prioritizeTasks clock w in
  let l := scheduleLoop tz clock settings (filter Task.isFlexible (fst p))
             (SchedulingResult.mk true [] [] [] []) (snd p) in
  let g := generateSuggestions clock (fst l) (tasksArray (snd l)) (snd l) in
  (SchedulingResult.mk
     (Nat.eqb (List.length (SchedulingResult.unscheduledTasks (fst l))) 0)
     (SchedulingResult.scheduledTasks (fst l))
     (SchedulingResult.unscheduledTasks (fst l))
     (SchedulingResult.conflicts (fst l))
     (fst g),
   snd g).
Proof.
  unfold scheduleAllTasks, bind, readTasks, ret.
  destruct (prioritizeTasks clock w) as [sorted w1]. cbn [fst snd].
  destruct (scheduleLoop _ _ _ _ _ w1) as [result w2]. cbn [fst snd].
  now destruct (generateSuggestions clock result (tasksArray w2) w2).
Qed.

(** The whole call, seen as a trace: the attempts are made on the flexible
    tasks in ranked order, and the result lists what the attempts gave. *)
Lemma scheduleAllTasks_pass tz clock settings w :
  exists outs,
    map fst outs = filter Task.isFlexible (fst (prioritizeTasks clock w))
    /\ fst (scheduleAllTasks tz clock settings w)
       = SchedulingResult.mk
           (Nat.eqb (List.length (flat_map unscheduledOf outs)) 0)
           (flat_map placementOf outs)
           (flat_map unscheduledOf outs)
           (flat_map conflictOf outs)
           (SchedulingResult.suggestions (fst (scheduleAllTasks tz clock settings w)))
    /\ Pass tz settings (existingEvents w) outs
         (existingEvents (snd (scheduleAllTasks tz clock settings w)))
    /\ tasksArray (snd (scheduleAllTasks tz clock settings w))
       = fst (prioritizeTasks clock w).
Proof.
  rewrite scheduleAllTasks_eq. cbv zeta. cbn [fst snd SchedulingResult.suggestions].
  destruct (prioritizeTasks_store clock w) as [Hev Htasks].
  destruct (prioritizeTasks clock w) as [sorted w1]. cbn [fst snd] in *.
  destruct (scheduleLoop_pass tz clock settings (filter Task.isFlexible sorted)
              (SchedulingResult.mk true [] [] [] []) w1)
    as (outs & Hmap & Hres & Hpass & Harr).
  destruct (scheduleLoop _ _ _ _ _ w1) as [result w2]. cbn [fst snd] in *.
  pose proof (clockOnly_generateSuggestions clock result (tasksArray w2) w2)
    as [Hev3 Htasks3].
  destruct (generateSuggestions clock result (tasksArray w2) w2) as [sugg w3].
  cbn [fst snd] in *. exists outs. subst result. simpl.
  rewrite Hev3, Htasks3, Harr, Htasks, <- Hev. auto.
Qed.

(** ** [Array.prototype.sort] permutes *)

Lemma insertM_Permutation {A} (compare : A -> A -> M Z) (x : A) (l : list A) :
  forall w, Permutation (x :: l) (fst (insertM compare x l w)).
Proof.
  induction l as [|y l IH]; intros w; simpl; [reflexivity|].
  unfold bind. destruct (compare x y w) as [c w1].
  destruct (c >? 0); [|reflexivity].
  specialize (IH w1). destruct (insertM compare x l w1) as [r w2]. simpl in *.
  rewrite perm_swap. now constructor.
Qed.

Lemma sortM_Permutation {A} (compare : A -> A -> M Z) (l : list A) :
  forall w, Permutation l (fst (sortM compare l w)).
Proof.
  induction l as [|x l IH]; intros w; simpl; [reflexivity|].
  unfold bind. specialize (IH w). destruct (sortM compare l w) as [s w1].
  simpl in IH. rewrite <- insertM_Permutation. now constructor.
Qed.

Lemma prioritizeTasks_Permutation clock w :
  Permutation (tasksArray w) (fst (prioritizeTasks clock w)).
Proof.
  unfold prioritizeTasks, bind, readTasks, writeTasks, ret.
  pose proof (sortM_Permutation (compareTasks clock (tasksArray w)) (tasksArray w) w).
  now destruct (sortM _ _ w).
Qed.

(** ** No overlap between commitments *)

Lemma slotClear_free settings events durationMinutes start end_ :
  0 <= CalendarSettings.bufferTime settings ->
  slotClear settings events durationMinutes start end_ ->
  end_ = start + durationMinutes * msPerMinute
  /\ forall e, In e events ->
       ~ overlap start end_ (CalendarEvent.start e) (CalendarEvent.end_ e).
Proof.
  intros Hbuf [Hend Hclear]. split; [exact Hend|].
  intros e He.
  pose proof (proj1 (findConflicts_nil _ _ _) Hclear e He) as Hno.
  apply (conflictsWith_false_disjoint _ _ end_) in Hno.
  - unfold overlap. tauto.
  - subst end_. unfold addMinutes, msPerMinute. lia.
Qed.

Lemma Pass_CommitsFree tz settings pool events outs events' :
  0 <= CalendarSettings.bufferTime settings ->
  Pass tz settings events outs events' ->
  (forall task, In task (map fst outs) -> In task pool) ->
  CommitsFree pool events (flat_map placementOf outs).
Proof.
  intros Hbuf Hpass. induction Hpass as [|events task a outs events' Hspec _ IH];
    intros Hpool; simpl; [constructor|].
  assert (Hrest : forall t, In t (map fst outs) -> In t pool)
    by (intros t Ht; apply Hpool; now right).
  specialize (IH Hrest).
  inversion Hspec as [Hd Ha | sg ws we Hd Hnone Ha | slot ws we Hd Hin Ha];
    subst a; unfold placementOf, eventOf in *; simpl in *.
  - now rewrite app_nil_r in IH.
  - now rewrite app_nil_r in IH.
  - apply findAvailableSlots_clear in Hin.
    destruct (slotClear_free _ _ _ _ _ Hbuf Hin) as [Hend Hfree].
    eapply free_cons with (task := task); simpl; auto.
Qed.

Lemma CommitsFree_pairwise pool events placements :
  CommitsFree pool events placements ->
  (forall p e, In p placements -> In e events ->
     ~ overlap (ScheduledTask.start p) (ScheduledTask.end_ p)
         (CalendarEvent.start e) (CalendarEvent.end_ e))
  /\ ForallOrdPairs
       (fun p q => ~ overlap (ScheduledTask.start p) (ScheduledTask.end_ p)
                     (ScheduledTask.start q) (ScheduledTask.end_ q))
       placements.
Proof.
  induction 1 as [|events task p placements Hin Hid Hend Hfree _ [IHev IHpairs]].
  - split; [intros p e [] | constructor].
  - split.
    + intros q e [<-|Hq] He; [now apply Hfree|].
      apply IHev; [assumption | apply in_or_app; now left].
    + constructor; [|assumption].
      apply Forall_forall. intros q Hq Hov.
      apply (IHev q (taskEvent task (ScheduledTask.start p) (ScheduledTask.end_ p)));
        [assumption | apply in_or_app; right; now left |].
      unfold overlap in *. simpl. tauto.
Qed.

(** C1: with a non-negative buffer, every placement is, at the moment it is
    committed, free of overlap with every interval then in the conflict set
    (the pre-existing events and the placements committed before it), it lasts
    exactly the estimated duration of its task, and so the placements of one
    pass are pairwise non-overlapping. *)
Theorem committed_placements_never_overlap tz clock settings w :
  0 <= CalendarSettings.bufferTime settings ->
  CommitsFree (tasksArray w) (existingEvents w)
    (SchedulingResult.scheduledTasks (fst (scheduleAllTasks tz clock settings w)))
  /\ ForallOrdPairs
       (fun p q => ~ overlap (ScheduledTask.start p) (ScheduledTask.end_ p)
                     (ScheduledTask.start q) (ScheduledTask.end_ q))
       (SchedulingResult.scheduledTasks (fst (scheduleAllTasks tz clock settings w))).
Proof.
  intros Hbuf.
  destruct (scheduleAllTasks_pass tz clock settings w)
    as (outs & Hmap & Hres & Hpass & _).
  rewrite Hres. cbn [SchedulingResult.scheduledTasks].
  assert (Hfree : CommitsFree (tasksArray w) (existingEvents w)
                    (flat_map placementOf outs)).
  { eapply Pass_CommitsFree; [exact Hbuf | exact Hpass |].
    intros task Hin. rewrite Hmap in Hin. apply filter_In in Hin.
    eapply Permutation_in; [symmetry; apply prioritizeTasks_Permutation|].
    exact (proj1 Hin). }
  split; [exact Hfree | exact (proj2 (CommitsFree_pairwise _ _ _ Hfree))].
Qed.

Lemma committed_placements_never_overlap_witness :
  0 <= CalendarSettings.bufferTime (officeSettings weekdays 15)
  /\ CommitsFree (tasksArray twoTasks) (existingEvents twoTasks)
       (SchedulingResult.scheduledTasks
          (fst (scheduleAllTasks 0 (frozenAt mondayAfternoon)
                  (officeSettings weekdays 15) twoTasks)))
  /\ ForallOrdPairs
       (fun p q => ~ overlap (ScheduledTask.start p) (ScheduledTask.end_ p)
                     (ScheduledTask.start q) (ScheduledTask.end_ q))
       (SchedulingResult.scheduledTasks
          (fst (scheduleAllTasks 0 (frozenAt mondayAfternoon)
                  (officeSettings weekdays 15) twoTasks))).
Proof.
  split; [simpl; lia|].
  apply (committed_placements_never_overlap 0 (frozenAt mondayAfternoon)
           (officeSettings weekdays 15) twoTasks).
  simpl; lia.
Defined.

(** ** Success flag *)




(** ** Unsatisfied dependencies *)

Lemma missingDependencies_In events deps depId :
  In depId (missingDependencies events deps) <->
  In depId deps
  /\ forall e, In e events -> CalendarEvent.taskId e <> Some depId.
Proof.
  unfold missingDependencies. rewrite filter_In.
  apply and_iff_compat_l.
  destruct (find _ events) as [e|] eqn:Hfind.
  - split; [discriminate|]. intros Hnone.
    apply find_some in Hfind. destruct Hfind as [Hin Heq].
    destruct (CalendarEvent.taskId e) as [i|] eqn:Hid; [|discriminate].
    apply String.eqb_eq in Heq. subst i. now elim (Hnone e Hin).
  - split; [|reflexivity]. intros _ e Hin Hid.
    apply (find_none _ _ Hfind) in Hin. rewrite Hid, String.eqb_refl in Hin.
    discriminate.
Qed.

Lemma scheduleLoop_app tz clock settings pre post :
  forall result w,
    scheduleLoop tz clock settings (pre ++ post) result w =
    scheduleLoop tz clock settings post
      (fst (scheduleLoop tz clock settings pre result w))
      (snd (scheduleLoop tz clock settings pre result w)).
Proof.
  induction pre as [|task pre IH]; intros result w; simpl; [reflexivity|].
  unfold bind. destruct (scheduleStep tz clock settings result task w) as [r1 w1].
  apply IH.
Qed.

(** C8 as stated fails on the letter case only: the reason the code reports
    starts with a capital D, so it does not begin with the lower-case text. *)
Lemma dependency_reason_is_capitalised :
  let task := Task.mk "C" "Write report" low 30 None 0 (Some ["Z"]) true in
  let result :=
    fst (scheduleAllTasks 0 (frozenAt mondayAfternoon)
           (officeSettings weekdays 15) (mkWorld [] [task] 0)) in
  SchedulingResult.conflicts result
  = [Conflict.mk "C" "Dependencies not satisfied: Z" None]
  /\ SchedulingResult.scheduledTasks result = []
  /\ forall c, In c (SchedulingResult.conflicts result) ->
       String.prefix "dependencies not satisfied" (Conflict.reason c) = false.
Proof.
  vm_compute. split; [reflexivity|]. split; [reflexivity|].
  intros c [<-|[]]. reflexivity.
Qed.

(** C8 (amended): when the turn of a task comes and one of its dependency
    identifiers is the [taskId] of no event in the conflict set (pre-existing
    events and placements committed earlier in the pass), the attempt fails
    with the reason "Dependencies not satisfied: " (capital D) followed by the
    missing identifiers joined by ", ", among them that identifier; no slot
    search is made (the store and the clock are untouched), and the loop
    records the failure and goes on without placing the task. *)
Theorem missing_dependency_fails_without_search
    tz clock settings task deps depId result w :
  Task.dependencies task = Some deps ->
  In depId deps ->
  (forall e, In e (existingEvents w) -> CalendarEvent.taskId e <> Some depId) ->
  let missing := missingDependencies (existingEvents w) deps in
  let reason := ("Dependencies not satisfied: " ++ String.concat ", " missing)%string in
  let failed :=
    SchedulingResult.mk
      (SchedulingResult.success result)
      (SchedulingResult.scheduledTasks result)
      (SchedulingResult.unscheduledTasks result ++ [Task.id task])
      (SchedulingResult.conflicts result ++ [Conflict.mk (Task.id task) reason None])
      (SchedulingResult.suggestions result) in
  In depId missing
  /\ scheduleTask tz clock settings task w = (NotScheduled (Some reason) None, w)
  /\ scheduleStep tz clock settings result task w = (failed, w)
  /\ forall pre post result0 w0,
       scheduleLoop tz clock settings pre result0 w0 = (result, w) ->
       scheduleLoop tz clock settings (pre ++ task :: post) result0 w0
       = scheduleLoop tz clock settings post failed w.
Proof.
  intros Hdeps Hin Hnone missing reason failed.
  assert (Hmissing : In depId missing)
    by (apply missingDependencies_In; auto).
  assert (Htask : scheduleTask tz clock settings task w
                  = (NotScheduled (Some reason) None, w)).
  { unfold scheduleTask, bind, readExistingEvents, ret, checkDependencies.
    rewrite Hdeps. destruct deps as [|d deps]; [destruct Hin|].
    fold missing. destruct missing; [destruct Hmissing | reflexivity]. }
  assert (Hstep : scheduleStep tz clock settings result task w = (failed, w)).
  { unfold scheduleStep, bind. rewrite Htask. reflexivity. }
  repeat split; try assumption.
  intros pre post result0 w0 Hpre.
  rewrite scheduleLoop_app, Hpre. cbn [fst snd scheduleLoop].
  unfold bind. now rewrite Hstep.
Qed.

Lemma missing_dependency_fails_without_search_witness :
  let task := Task.mk "C" "Write report" low 30 None 0 (Some ["Z"]) true in
  let w := mkWorld [] [task] 0 in
  scheduleTask 0 (frozenAt mondayAfternoon) (officeSettings weekdays 15) task w
  = (NotScheduled (Some "Dependencies not satisfied: Z") None, w).
Proof.
  exact (proj1 (proj2
    (missing_dependency_fails_without_search 0 (frozenAt mondayAfternoon)
       (officeSettings weekdays 15)
       (Task.mk "C" "Write report" low 30 None 0 (Some ["Z"]) true)
       ["Z"] "Z" (SchedulingResult.mk true [] [] [] [])
       (mkWorld [] [Task.mk "C" "Write report" low 30 None 0 (Some ["Z"]) true] 0)
       eq_refl (or_introl eq_refl) (fun e (H : In e []) => match H with end)))).
Defined.

(** ** No working day configured *)







(** ** Effect on the caller's arrays *)

Lemma Pass_events tz settings events outs events' :
  Pass tz settings events outs events' ->
  events' = events ++ flat_map eventOf outs.
Proof.
  induction 1 as [|events task a outs events' _ _ IH]; simpl.
  - now rewrite app_nil_r.
  - now rewrite IH, <- app_assoc.
Qed.

Lemma outcomes_events (outs : list Outcome) :
  map (fun e => (CalendarEvent.taskId e, CalendarEvent.start e, CalendarEvent.end_ e))
    (flat_map eventOf outs)
  = map (fun p => (Some (ScheduledTask.taskId p), ScheduledTask.start p,
                   ScheduledTask.end_ p))
      (flat_map placementOf outs).
Proof.
  induction outs as [|[task [s e c|r st]] outs IH];
    cbn [flat_map eventOf placementOf fst snd]; [reflexivity| |exact IH].
  simpl. now rewrite IH.
Qed.

(** C4 as stated fails: after the call the caller's [tasks] array is in
    ranked order, no longer in the order it was passed in, and the caller's
    events array holds the two committed placements. *)
Lemma caller_arrays_are_mutated :
  let out := scheduleAllTasks 0 (frozenAt mondayAfternoon)
               (officeSettings weekdays 15) twoTasks in
  tasksArray twoTasks = [plainTask "B" low 30; plainTask "A" high 30]
  /\ tasksArray (snd out) = [plainTask "A" high 30; plainTask "B" low 30]
  /\ existingEvents twoTasks = []
  /\ existingEvents (snd out)
     = [taskEvent (plainTask "A" high 30)
          (monday + 33 * msPerHour) (monday + 33 * msPerHour + 30 * msPerMinute);
        taskEvent (plainTask "B" low 30)
          (monday + 13 * msPerHour) (monday + 13 * msPerHour + 30 * msPerMinute)].
Proof. vm_compute. repeat split. Qed.

(** C4 (amended): [scheduleAllTasks] works on the caller's arrays themselves.
    After the call the [tasks] array holds the same tasks as before,
    rearranged into the order [prioritizeTasks] returned, and the events array
    holds its former elements in their former order followed by one event per
    committed placement, in commit order; nothing is removed from either. *)
Theorem scheduleAllTasks_store_effect tz clock settings w :
  let out := scheduleAllTasks tz clock settings w in
  tasksArray (snd out) = fst (prioritizeTasks clock w)
  /\ Permutation (tasksArray w) (tasksArray (snd out))
  /\ exists added,
       existingEvents (snd out) = existingEvents w ++ added
       /\ map (fun e => (CalendarEvent.taskId e, CalendarEvent.start e,
                         CalendarEvent.end_ e)) added
          = map (fun p => (Some (ScheduledTask.taskId p), ScheduledTask.start p,
                           ScheduledTask.end_ p))
              (SchedulingResult.scheduledTasks (fst out)).
Proof.
  intros out. subst out.
  destruct (scheduleAllTasks_pass tz clock settings w)
    as (outs & Hmap & Hres & Hpass & Htasks).
  rewrite Htasks. split; [reflexivity|].
  split; [apply prioritizeTasks_Permutation|].
  exists (flat_map eventOf outs). split; [now apply Pass_events in Hpass|].
  rewrite Hres. apply outcomes_events.
Qed.

(** ** The buffer between two placements of one pass *)

Lemma paddedClear_incl settings pool events events' q :
  incl events' events ->
  paddedClear settings pool events q -> paddedClear settings pool events' q.
Proof.
  intros Hincl (t & Ht & Hq & Hno). exists t. repeat split; auto.
Qed.

Lemma Pass_padded tz settings pool events outs events' :
  Pass tz settings events outs events' ->
  (forall task, In task (map fst outs) -> In task pool) ->
  Forall (paddedClear settings pool events) (flat_map placementOf outs)
  /\ ForallOrdPairs (keepsClear settings pool) (flat_map placementOf outs).
Proof.
  intros Hpass. induction Hpass as [|events task a outs events' Hspec _ IH];
    intros Hpool; [split; constructor|].
  assert (Hrest : forall t, In t (map fst outs) -> In t pool)
    by (intros t Ht; apply Hpool; now right).
  specialize (IH Hrest). destruct IH as [IHall IHpairs].
  inversion Hspec as [Hd Ha | sg ws we Hd Hnone Ha | slot ws we Hd Hin Ha];
    subst a; cbn [flat_map placementOf eventOf fst snd app] in *;
    rewrite ?app_nil_r in IHall; try (split; assumption).
  apply findAvailableSlots_clear in Hin. destruct Hin as [Hend Hclear].
  rewrite findConflicts_nil in Hclear.
  assert (Htask : In task pool) by (apply Hpool; now left).
  split.
  - constructor.
    + exists task. simpl. auto.
    + eapply Forall_impl; [|exact IHall]. intros q.
      apply paddedClear_incl. intros e He. apply in_or_app. now left.
  - constructor; [|assumption].
    eapply Forall_impl; [|exact IHall]. intros q Hq.
    exists task. simpl. repeat split; auto.
    revert Hq. apply paddedClear_incl.
    intros e He. apply in_or_app. now right.
Qed.

Lemma ForallOrdPairs_impl {A} (R R' : A -> A -> Prop) (l : list A) :
  (forall a b, R a b -> R' a b) -> ForallOrdPairs R l -> ForallOrdPairs R' l.
Proof.
  intros Himpl. induction 1 as [|a l Ha _ IH]; constructor; [|assumption].
  eapply Forall_impl; [|exact Ha]. auto.
Qed.

(** C9 as stated fails: on a Monday at 13:00 the high-priority task, ranked
    first, is committed to Tuesday 09:00, and the low-priority task, second,
    is then committed to Monday 13:00, twenty hours BEFORE the first. *)
Lemma second_task_placed_before_first :
  let result := fst (scheduleAllTasks 0 (frozenAt mondayAfternoon)
                       (officeSettings weekdays 15) twoTasks) in
  map (fun p => (ScheduledTask.taskId p, ScheduledTask.start p))
    (SchedulingResult.scheduledTasks result)
  = [("A", monday + 33 * msPerHour); ("B", monday + 13 * msPerHour)]
  /\ ~ (monday + 33 * msPerHour + 45 * msPerMinute <= monday + 13 * msPerHour).
Proof.
  split; [vm_compute; reflexivity | unfold monday, msPerHour, msPerMinute; lia].
Qed.

(** The buffer pads a candidate at its end only: a task created at 13:01 is
    committed to 13:31, one minute after the end of the 13:00-13:30 placement
    and 31 minutes after its start. *)
Lemma second_task_31_minutes_after_first :
  let later := Task.mk "B" "B" low 30 None (mondayAfternoon + msPerMinute) None true in
  let result := fst (scheduleAllTasks 0 (frozenAt mondayAfternoon)
                       (officeSettings weekdays 15)
                       (mkWorld [] [plainTask "A" low 30; later] 0)) in
  map (fun p => (ScheduledTask.taskId p, ScheduledTask.start p))
    (SchedulingResult.scheduledTasks result)
  = [("A", mondayAfternoon); ("B", mondayAfternoon + 31 * msPerMinute)].
Proof. vm_compute. reflexivity. Qed.

(** C9 (amended): with a buffer of 15 minutes and tasks of 30 minutes, when
    exactly two tasks are placed, the second committed start is either more
    than 30 minutes after the first committed start (it lies after the end of
    the first placement) or more than 45 minutes before it (the second
    placement and its buffer end before the first starts). *)
Theorem second_placement_clear_of_first tz clock settings w first second :
  CalendarSettings.bufferTime settings = 15 ->
  (forall task, In task (tasksArray w) -> Task.estimatedDuration task = 30) ->
  SchedulingResult.scheduledTasks (fst (scheduleAllTasks tz clock settings w))
  = [first; second] ->
  ScheduledTask.start first + 30 * msPerMinute < ScheduledTask.start second
  \/ ScheduledTask.start second + 45 * msPerMinute < ScheduledTask.start first.
Proof.
  intros Hbuf Hdur Hplaced.
  destruct (scheduleAllTasks_pass tz clock settings w)
    as (outs & Hmap & Hres & Hpass & _).
  rewrite Hres in Hplaced. cbn [SchedulingResult.scheduledTasks] in Hplaced.
  destruct (Pass_padded tz settings (tasksArray w) _ _ _ Hpass) as [_ Hpairs].
  { intros task Hin. rewrite Hmap in Hin. apply filter_In in Hin.
    eapply Permutation_in; [symmetry; apply prioritizeTasks_Permutation|].
    exact (proj1 Hin). }
  rewrite Hplaced in Hpairs.
  inversion Hpairs as [|a l Hfirst _]; subst.
  inversion Hfirst as [|b l' Hsecond _]; subst.
  destruct Hsecond as (tp & Htp & Hend & tq & Htq & _ & Hno).
  specialize (Hno _ (or_introl eq_refl)).
  rewrite Hbuf, (Hdur tq Htq) in Hno. rewrite (Hdur tp Htp) in Hend.
  apply not_true_iff_false in Hno.
  unfold addMinutes, msPerMinute in *.
  rewrite conflictsWith_closed in Hno by (simpl; lia).
  simpl in Hno. lia.
Qed.

Lemma second_placement_clear_of_first_witness :
  ScheduledTask.start
    (ScheduledTask.mk "A" (monday + 33 * msPerHour)
       (monday + 33 * msPerHour + 30 * msPerMinute) (90 # 100))
  + 30 * msPerMinute
  < ScheduledTask.start
      (ScheduledTask.mk "B" (monday + 13 * msPerHour)
         (monday + 13 * msPerHour + 30 * msPerMinute) (7 # 10))
  \/ ScheduledTask.start
       (ScheduledTask.mk "B" (monday + 13 * msPerHour)
          (monday + 13 * msPerHour + 30 * msPerMinute) (7 # 10))
     + 45 * msPerMinute
     < ScheduledTask.start
         (ScheduledTask.mk "A" (monday + 33 * msPerHour)
            (monday + 33 * msPerHour + 30 * msPerMinute) (90 # 100)).
Proof.
  apply (second_placement_clear_of_first 0 (frozenAt mondayAfternoon)
           (officeSettings weekdays 15) twoTasks).
  - reflexivity.
  - intros task [<-|[<-|[]]]; reflexivity.
  - vm_compute. reflexivity.
Defined.

(** ** Determinism under a frozen clock *)

Lemma agree_ret {A} (a : A) : agree (ret a) (ret a).
Proof. intros w1 w2 H. split; [reflexivity | exact H]. Qed.

Lemma agree_bind {A B} (c1 c2 : M A) (k1 k2 : A -> M B) :
  agree c1 c2 -> (forall a, agree (k1 a) (k2 a)) ->
  agree (bind c1 k1) (bind c2 k2).
Proof.
  intros Hc Hk w1 w2 Hw. unfold bind.
  destruct (Hc w1 w2 Hw) as [Hval Hstore].
  destruct (c1 w1) as [a1 w1'], (c2 w2) as [a2 w2']. simpl in *. subst a2.
  now apply Hk.
Qed.

Lemma agree_if {A} (b : bool) (c1 c2 d1 d2 : M A) :
  agree c1 c2 -> agree d1 d2 ->
  agree (if b then c1 else d1) (if b then c2 else d2).
Proof. now destruct b. Qed.

Section TwoClocks.

Variables (clock1 clock2 : nat -> Date) (now : Date).
Hypothesis frozen1 : frozen clock1 now.
Hypothesis frozen2 : frozen clock2 now.

Lemma agree_newDate : agree (newDate clock1) (newDate clock2).
Proof.
  intros w1 w2 [Hev Htasks]. unfold newDate, sameStore. simpl.
  now rewrite frozen1, frozen2.
Qed.

Lemma agree_read_events : agree readExistingEvents readExistingEvents.
Proof. intros w1 w2 [Hev Htasks]. unfold sameStore. simpl. auto. Qed.

Lemma agree_read_tasks : agree readTasks readTasks.
Proof. intros w1 w2 [Hev Htasks]. unfold sameStore. simpl. auto. Qed.

Lemma agree_write_tasks l : agree (writeTasks l) (writeTasks l).
Proof. intros w1 w2 [Hev Htasks]. unfold sameStore. simpl. auto. Qed.

Lemma agree_push e : agree (pushExistingEvent e) (pushExistingEvent e).
Proof.
  intros w1 w2 [Hev Htasks]. unfold sameStore. simpl. now rewrite Hev, Htasks.
Qed.

Create HintDb agree.
#[local] Hint Resolve agree_ret agree_newDate agree_read_events agree_read_tasks
  agree_write_tasks agree_push : agree.
#[local] Hint Extern 3 (agree (bind _ _) (bind _ _)) =>
  apply agree_bind; [|intros ?] : agree.
#[local] Hint Extern 3 (agree (if ?b then _ else _) (if ?b then _ else _)) =>
  apply agree_if : agree.

Lemma agree_getUrgencyScore task :
  agree (getUrgencyScore clock1 task) (getUrgencyScore clock2 task).
Proof. unfold getUrgencyScore. destruct (Task.deadline task); auto 12 with agree. Qed.

Lemma agree_compareTasks tasks a b :
  agree (compareTasks clock1 tasks a b) (compareTasks clock2 tasks a b).
Proof. unfold compareTasks. auto using agree_getUrgencyScore with agree. Qed.

Lemma agree_insertM {A} (compare1 compare2 : A -> A -> M Z) (x : A) (l : list A) :
  (forall a b, agree (compare1 a b) (compare2 a b)) ->
  agree (insertM compare1 x l) (insertM compare2 x l).
Proof. intros Hc. induction l as [|y l IH]; simpl; auto 10 with agree. Qed.

Lemma agree_sortM {A} (compare1 compare2 : A -> A -> M Z) (l : list A) :
  (forall a b, agree (compare1 a b) (compare2 a b)) ->
  agree (sortM compare1 l) (sortM compare2 l).
Proof.
  intros Hc. induction l as [|x l IH]; simpl; auto with agree.
  apply agree_bind; [assumption|]. intros s. now apply agree_insertM.
Qed.

Lemma agree_filterM {A} (p1 p2 : A -> M bool) (l : list A) :
  (forall a, agree (p1 a) (p2 a)) -> agree (filterM p1 l) (filterM p2 l).
Proof. intros Hp. induction l as [|x l IH]; simpl; auto 10 with agree. Qed.

Lemma agree_prioritizeTasks : agree (prioritizeTasks clock1) (prioritizeTasks clock2).
Proof.
  unfold prioritizeTasks.
  apply agree_bind; [auto with agree|]. intros tasks.
  apply agree_bind; [|auto 10 with agree].
  apply agree_sortM. apply agree_compareTasks.
Qed.

Lemma agree_generateSuggestions result tasks :
  agree (generateSuggestions clock1 result tasks)
        (generateSuggestions clock2 result tasks).
Proof.
  unfold generateSuggestions.
  apply agree_bind; [|auto with agree].
  apply agree_filterM. intros t. destruct (Task.deadline t); auto with agree.
Qed.

Lemma agree_scheduleTask tz settings task :
  agree (scheduleTask tz clock1 settings task) (scheduleTask tz clock2 settings task).
Proof.
  unfold scheduleTask, calculateSchedulingWindow, suggestAlternativeTime.
  apply agree_bind; [auto with agree|]. intros events.
  apply agree_if; [auto with agree|].
  apply agree_bind; [auto 10 with agree|]. intros window.
  destruct (findAvailableSlots _ _ _ _ _ _); auto 10 with agree.
Qed.

Lemma agree_scheduleStep tz settings result task :
  agree (scheduleStep tz clock1 settings result task)
        (scheduleStep tz clock2 settings result task).
Proof.
  unfold scheduleStep.
  apply agree_bind; [apply agree_scheduleTask|].
  intros [start end_ confidence|reason suggested]; auto 10 with agree.
Qed.

Lemma agree_scheduleLoop tz settings flexibleTasks :
  forall result,
    agree (scheduleLoop tz clock1 settings flexibleTasks result)
          (scheduleLoop tz clock2 settings flexibleTasks result).
Proof.
  induction flexibleTasks as [|task rest IH]; intros result; simpl;
    auto using agree_scheduleStep with agree.
Qed.

Lemma agree_scheduleAllTasks tz settings :
  agree (scheduleAllTasks tz clock1 settings) (scheduleAllTasks tz clock2 settings).
Proof.
  unfold scheduleAllTasks.
  apply agree_bind; [apply agree_prioritizeTasks|]. intros sorted.
  apply agree_bind; [apply agree_scheduleLoop|]. intros result.
  apply agree_bind; [auto with agree|]. intros tasks.
  apply agree_bind; [apply agree_generateSuggestions|]. auto with agree.
Qed.

End TwoClocks.

(** C3 as stated fails: the clock is read again at every use.  Two passes
    whose clocks show the same instant at the start of the pass differ in
    their results when one clock moves on during the pass: a deadline one
    millisecond after the start is not overdue for the frozen clock and is
    overdue at the later read of the ticking clock. *)
Lemma clock_is_read_again_during_a_pass :
  let task := Task.mk "A" "Call back" low 30 (Some (mondayAfternoon + 1)) 0 None true in
  let w := mkWorld [] [task] 0 in
  let settings := officeSettings weekdays 15 in
  frozenAt mondayAfternoon 0%nat = tickingFrom mondayAfternoon 0%nat
  /\ SchedulingResult.suggestions
       (fst (scheduleAllTasks 0 (frozenAt mondayAfternoon) settings w))
     = [Suggestion.mk
          "1 tasks couldn't be scheduled. Consider extending working hours or reducing task load."
          extend_hours [("unscheduledCount", 1%nat)]]
  /\ SchedulingResult.suggestions
       (fst (scheduleAllTasks 0 (tickingFrom mondayAfternoon) settings w))
     = [Suggestion.mk
          "1 tasks couldn't be scheduled. Consider extending working hours or reducing task load."
          extend_hours [("unscheduledCount", 1%nat)];
        Suggestion.mk
          "1 tasks are overdue. Consider adjusting deadlines or priorities."
          adjust_deadlines [("overdueCount", 1%nat)]]
  /\ fst (scheduleAllTasks 0 (frozenAt mondayAfternoon) settings w)
     <> fst (scheduleAllTasks 0 (tickingFrom mondayAfternoon) settings w).
Proof.
  vm_compute. repeat split. discriminate.
Qed.

(** C3 (amended): the clock is read at every use, not captured once; when
    every read during the two passes returns the same instant [now], two calls
    with identical tasks, settings and existing events return identical
    results (same placements, order, failures and suggestions) and leave
    identical arrays. *)
Theorem scheduleAllTasks_deterministic tz settings now clock1 clock2 w1 w2 :
  frozen clock1 now ->
  frozen clock2 now ->
  existingEvents w1 = existingEvents w2 ->
  tasksArray w1 = tasksArray w2 ->
  fst (scheduleAllTasks tz clock1 settings w1)
  = fst (scheduleAllTasks tz clock2 settings w2)
  /\ existingEvents (snd (scheduleAllTasks tz clock1 settings w1))
     = existingEvents (snd (scheduleAllTasks tz clock2 settings w2))
  /\ tasksArray (snd (scheduleAllTasks tz clock1 settings w1))
     = tasksArray (snd (scheduleAllTasks tz clock2 settings w2)).
Proof.
  intros H1 H2 Hev Htasks.
  exact (agree_scheduleAllTasks clock1 clock2 now H1 H2 tz settings w1 w2
           (conj Hev Htasks)).
Qed.

Lemma scheduleAllTasks_deterministic_witness :
  fst (scheduleAllTasks 0 (frozenAt mondayAfternoon) (officeSettings weekdays 15)
         twoTasks)
  = fst (scheduleAllTasks 0 (fun k => mondayAfternoon + 0 * Z.of_nat k)
           (officeSettings weekdays 15)
           (mkWorld [] [plainTask "B" low 30; plainTask "A" high 30] 7)).
Proof.
  exact (proj1
    (scheduleAllTasks_deterministic 0 (officeSettings weekdays 15) mondayAfternoon
       (frozenAt mondayAfternoon) (fun k => mondayAfternoon + 0 * Z.of_nat k)
       twoTasks (mkWorld [] [plainTask "B" low 30; plainTask "A" high 30] 7)
       (fun k => eq_refl) (fun k => Z.add_0_r mondayAfternoon) eq_refl eq_refl)).
Defined.

(** ** Ranking *)

Lemma insertM_pure {A} (compareM : A -> A -> M Z) (compare : A -> A -> Z) x l :
  (forall a b w, fst (compareM a b w) = compare a b) ->
  forall w, fst (insertM compareM x l w) = insertBy compare x l.
Proof.
  intros Hc. induction l as [|y l IH]; intros w; simpl; [reflexivity|].
  unfold bind. specialize (Hc x y w). destruct (compareM x y w) as [c w1].
  simpl in Hc. subst c. destruct (compare x y >? 0); [|reflexivity].
  specialize (IH w1). destruct (insertM compareM x l w1). simpl in *.
  now subst.
Qed.

Lemma sortM_pure {A} (compareM : A -> A -> M Z) (compare : A -> A -> Z) l :
  (forall a b w, fst (compareM a b w) = compare a b) ->
  forall w, fst (sortM compareM l w) = sortBy compare l.
Proof.
  intros Hc. induction l as [|x l IH]; intros w; simpl; [reflexivity|].
  unfold bind. specialize (IH w). destruct (sortM compareM l w) as [s w1].
  simpl in IH. subst s. now apply insertM_pure.
Qed.

Section SortByScore.

Context {A : Type} (score : A -> Z).

Local Abbreviation byScore := (fun a b : A => score b - score a).
Local Abbreviation descending := (fun a b : A => score b <= score a).

Lemma insertBy_In x l y : In y (insertBy byScore x l) <-> y = x \/ In y l.
Proof.
  induction l as [|z l IH]; simpl; [intuition|].
  destruct (score z - score x >? 0); simpl; rewrite ?IH; intuition.
Qed.

Lemma insertBy_sorted x l :
  StronglySorted descending l -> StronglySorted descending (insertBy byScore x l).
Proof.
  induction 1 as [|z l Hsorted IH Hz]; simpl.
  - repeat constructor.
  - destruct (score z - score x >? 0) eqn:E.
    + constructor; [assumption|].
      apply Forall_forall. intros y Hy. apply insertBy_In in Hy.
      destruct Hy as [->|Hy]; [lia|].
      rewrite Forall_forall in Hz. now apply Hz.
    + constructor; [now constructor|].
      constructor; [lia|].
      eapply Forall_impl; [|exact Hz]. simpl. intros; lia.
Qed.

Lemma sortBy_sorted l : StronglySorted descending (sortBy byScore l).
Proof.
  induction l as [|x l IH]; simpl; [constructor | now apply insertBy_sorted].
Qed.

(** Among the elements of one score, insertion puts the new element first. *)
Lemma insertBy_stable s x l :
  filter (fun a => score a =? s) (insertBy byScore x l)
  = filter (fun a => score a =? s) (x :: l).
Proof.
  induction l as [|z l IH]; [reflexivity|].
  cbn [insertBy]. destruct (score z - score x >? 0) eqn:E; [|reflexivity].
  cbn [filter] in *. rewrite IH.
  destruct (score x =? s) eqn:Ex, (score z =? s) eqn:Ez; try reflexivity. lia.
Qed.

Lemma sortBy_stable s l :
  filter (fun a => score a =? s) (sortBy byScore l)
  = filter (fun a => score a =? s) l.
Proof.
  induction l as [|x l IH]; [reflexivity|].
  cbn [sortBy]. rewrite insertBy_stable. cbn [filter]. now rewrite IH.
Qed.

End SortByScore.

Lemma hoursToDeadline_lt (d k : Z) :
  Qltb (inject_Z d / inject_Z msPerHour) (inject_Z k) = (d <? k * msPerHour).
Proof.
  unfold Qltb, Qle_bool, Qdiv, Qmult, Qinv, msPerHour. simpl.
  destruct (Z.leb_spec (k * 3600000) (d * 1)), (Z.ltb_spec d (k * 3600000));
    simpl; lia.
Qed.

Lemma getUrgencyScore_frozen clock now task w :
  frozen clock now ->
  fst (getUrgencyScore clock task w) = urgencySpec now (Task.deadline task).
Proof.
  intros Hfrozen. unfold getUrgencyScore, urgencySpec, bind, newDate.
  destruct (Task.deadline task) as [d|]; [|reflexivity]. rewrite Hfrozen.
  change 0%Q with (inject_Z 0). change 24%Q with (inject_Z 24).
  change 48%Q with (inject_Z 48). change 168%Q with (inject_Z 168).
  rewrite !hoursToDeadline_lt.
  replace (d - now <? 0 * msPerHour) with (d <? now)
    by (destruct (Z.ltb_spec d now), (Z.ltb_spec (d - now) (0 * msPerHour)); lia).
  change (7 * 24 * msPerHour) with (168 * msPerHour).
  destruct (d <? now); [reflexivity|].
  destruct (d - now <? 24 * msPerHour); [reflexivity|].
  destruct (d - now <? 48 * msPerHour); [reflexivity|].
  destruct (d - now <? 168 * msPerHour); reflexivity.
Qed.

Lemma getDependencyLevel_spec task allTasks :
  getDependencyLevel task allTasks = dependentsSpec allTasks task.
Proof.
  unfold getDependencyLevel, dependentsSpec. do 2 f_equal.
  apply filter_ext. intros u. unfold dependsOn.
  destruct (Task.dependencies u) as [deps|]; [|reflexivity].
  destruct (in_dec string_dec (Task.id task) deps) as [Hin|Hout].
  - apply existsb_exists. exists (Task.id task). split; [assumption|].
    apply String.eqb_refl.
  - apply not_true_iff_false. intros H. apply existsb_exists in H.
    destruct H as (x & Hx & Heq). apply String.eqb_eq in Heq. now subst x.
Qed.

Lemma compareTasks_frozen clock now tasks a b w :
  frozen clock now ->
  fst (compareTasks clock tasks a b w)
  = rankingScore now tasks b - rankingScore now tasks a.
Proof.
  intros Hfrozen. unfold compareTasks, bind, ret.
  pose proof (getUrgencyScore_frozen clock now a w Hfrozen) as Ha.
  destruct (getUrgencyScore clock a w) as [ua w1]. simpl in Ha.
  pose proof (getUrgencyScore_frozen clock now b w1 Hfrozen) as Hb.
  destruct (getUrgencyScore clock b w1) as [ub w2]. simpl in *.
  rewrite !getDependencyLevel_spec. subst ua ub.
  unfold rankingScore, priorityWeightSpec, getPriorityWeight.
  destruct (Task.priority a), (Task.priority b); lia.
Qed.

(** C5 as stated fails: the comparator reads the clock again for each of its
    two arguments, so the order it produces need not be descending for any
    single "now".  [P] and [R] both depend on [Q]; the three are low priority
    with the same deadline, so at every instant [Q] scores 6 more than [P].
    On a clock that reaches the deadline at its first read and moves on by a
    millisecond per read, the first comparison scores its first argument as
    due within 24h and its second as overdue, and [P] ends up at the head of
    the ranked array, before [Q]. *)
Lemma ranking_not_descending_on_a_ticking_clock :
  let P := Task.mk "P" "Draft" low 30 (Some mondayAfternoon) 0 (Some ["Q"]) true in
  let Q := Task.mk "Q" "Collect figures" low 30 (Some mondayAfternoon) 0 None true in
  let R := Task.mk "R" "Review" low 30 (Some mondayAfternoon) 0 (Some ["Q"]) true in
  let batch := [P; Q; R] in
  let ranked := fst (prioritizeTasks (tickingFrom mondayAfternoon)
                       (mkWorld [] batch 0)) in
  hd_error ranked = Some P
  /\ forall now,
       rankingScore now batch P < rankingScore now batch Q
       /\ ~ StronglySorted
            (fun a b => rankingScore now batch b <= rankingScore now batch a)
            ranked.
Proof.
  intros P Q R batch ranked.
  assert (Hranked : ranked = [P; R; Q]) by (vm_compute; reflexivity).
  rewrite Hranked. split; [reflexivity|]. intros now.
  assert (Hlt : rankingScore now batch P < rankingScore now batch Q).
  { unfold rankingScore.
    change (Task.deadline P) with (Task.deadline Q).
    change (Task.priority P) with (Task.priority Q).
    assert (HP : dependentsSpec batch P = 0) by reflexivity.
    assert (HQ : dependentsSpec batch Q = 2) by reflexivity.
    rewrite HP, HQ. lia. }
  split; [exact Hlt|]. intros Hsorted.
  apply StronglySorted_inv in Hsorted. destruct Hsorted as [_ Hall].
  apply Forall_inv_tail, Forall_inv in Hall. lia.
Qed.

(** C5 (amended): the urgency is taken from a clock read inside every
    comparison.  When every such read returns the same instant [now],
    [prioritizeTasks] returns the tasks rearranged in descending order of
    [10 * priorityWeight + 5 * urgency + 3 * dependents] (weights 3/2/1;
    urgency 10 when the deadline has passed, 8 / 6 / 4 when it is less than
    24h / 48h / 7 days away, 2 otherwise, 0 without deadline; dependents the
    number of batch items whose dependencies contain the task's identifier),
    and tasks of equal score keep their relative input order. *)
Theorem tasks_ranked_by_score clock now w :
  frozen clock now ->
  let ranked := fst (prioritizeTasks clock w) in
  let score := rankingScore now (tasksArray w) in
  Permutation (tasksArray w) ranked
  /\ StronglySorted (fun a b => score b <= score a) ranked
  /\ forall s, filter (fun t => score t =? s) ranked
               = filter (fun t => score t =? s) (tasksArray w).
Proof.
  intros Hfrozen ranked score.
  split; [apply prioritizeTasks_Permutation|].
  assert (Hranked : ranked = sortBy (fun a b => score b - score a) (tasksArray w)).
  { subst ranked. unfold prioritizeTasks, bind, readTasks, writeTasks, ret.
    pose proof (sortM_pure (compareTasks clock (tasksArray w))
                  (fun a b => score b - score a) (tasksArray w)
                  (fun a b w' => compareTasks_frozen clock now _ a b w' Hfrozen) w)
      as Hsort.
    now destruct (sortM _ _ w). }
  rewrite Hranked. split; [apply sortBy_sorted | intros s; apply sortBy_stable].
Qed.

Lemma tasks_ranked_by_score_witness :
  let batch := [plainTask "B" low 30; plainTask "A" high 30; plainTask "C" low 45] in
  let ranked := fst (prioritizeTasks (frozenAt mondayAfternoon) (mkWorld [] batch 0)) in
  let score := rankingScore mondayAfternoon batch in
  Permutation batch ranked
  /\ StronglySorted (fun a b => score b <= score a) ranked
  /\ forall s, filter (fun t => score t =? s) ranked
               = filter (fun t => score t =? s) batch.
Proof.
  exact (tasks_ranked_by_score (frozenAt mondayAfternoon) mondayAfternoon
           (mkWorld [] [plainTask "B" low 30; plainTask "A" high 30;
                        plainTask "C" low 45] 0)
           (fun k => eq_refl)).
Defined.

(** ** Deadline proximity in the slot score *)

Lemma Math_min_le_r (a b : Q) : (Math_min a b <= b)%Q.
Proof.
  unfold Math_min. destruct (Qle_bool a b) eqn:E.
  - now apply Qle_bool_iff.
  - apply Qle_refl.
Qed.

(** The deadline summand never exceeds 10. *)
Lemma deadlineScore_at_most_10 slot task : (deadlineScore slot task <= 10)%Q.
Proof.
  unfold deadlineScore. destruct (Task.deadline task) as [d|]; [|discriminate].
  destruct (Qgtb _ 0); [apply Math_min_le_r | discriminate].
Qed.

(** C6 fails on the code: for a task due on Thursday 00:00, the slot that
    starts 24 hours before the deadline gets 1 point and the slot that starts
    48 hours before it gets 2, so the slot with FEWER hours to the deadline
    receives the smaller deadline component, against the comment "Prefer slots
    closer to (but before) deadline" in [scoreTimeSlot]. *)
Theorem deadline_score_rewards_distance_from_deadline :
  let deadline := monday + 72 * msPerHour in
  let task := Task.mk "R" "Report" medium 60 (Some deadline) 0 None true in
  let near := TimeSlot.mk (deadline - 24 * msPerHour) (deadline - 23 * msPerHour) 60 true in
  let far := TimeSlot.mk (deadline - 48 * msPerHour) (deadline - 47 * msPerHour) 60 true in
  (deadlineScore near task == 1)%Q
  /\ (deadlineScore far task == 2)%Q
  /\ (deadlineScore near task < deadlineScore far task)%Q
  /\ (scoreTimeSlot 0 [] near task < scoreTimeSlot 0 [] far task)%Q.
Proof. vm_compute. repeat split; reflexivity. Qed.

(** What the code does instead: the later a slot starts, i.e. the fewer hours
    remain to the deadline, the smaller its deadline summand. *)
Lemma deadlineScore_shrinks_towards_deadline task slot1 slot2 :
  TimeSlot.start slot1 <= TimeSlot.start slot2 ->
  (deadlineScore slot2 task <= deadlineScore slot1 task)%Q.
Proof.
  intros Hle. unfold deadlineScore.
  destruct (Task.deadline task) as [d|]; [|apply Qle_refl].
  unfold Qgtb, Math_min.
  repeat match goal with
  | |- context [Qle_bool ?a ?b] =>
      let E := fresh "E" in
      destruct (Qle_bool a b) eqn:E;
      [apply Qle_bool_iff in E
      |apply not_true_iff_false in E; rewrite Qle_bool_iff in E;
       apply Qnot_le_lt in E]
  end; cbn [negb];
  unfold Qle, Qlt, Qdiv, Qmult, Qinv, inject_Z, msPerHour in *; simpl in *; lia.
Qed.

(** * Further properties of the scheduler *)

(** ** Where the slot search looks *)

Lemma findSlotsLoop_bounds events end_ durationMinutes slotDuration fuel :
  forall current slot,
    In slot (findSlotsLoop fuel events end_ durationMinutes slotDuration current) ->
    current <= TimeSlot.start slot
    /\ addMinutes (TimeSlot.start slot) slotDuration <= end_
    /\ TimeSlot.start slot <= end_
    /\ (TimeSlot.start slot - current) mod slotStep = 0.
Proof.
  induction fuel as [|fuel IH]; intros current slot Hin; simpl in Hin; [easy|].
  destruct (current <=? end_) eqn:Hle; [|easy]. apply Z.leb_le in Hle.
  destruct (addMinutes current slotDuration >? end_) eqn:Hgt; [easy|].
  apply in_app_or in Hin. destruct Hin as [Hin|Hin].
  - destruct (findConflicts events current _); [|easy].
    destruct Hin as [<-|[]]. simpl.
    rewrite Z.sub_diag, Z.gtb_ltb in *. apply Z.ltb_ge in Hgt.
    split; [lia|]. split; [assumption|]. split; [assumption | reflexivity].
  - apply IH in Hin. destruct Hin as (H1 & H2 & H3 & H4).
    repeat split; try assumption; unfold slotStep in *; [lia|].
    replace (TimeSlot.start slot - current)
      with (TimeSlot.start slot - (current + 15 * 60 * 1000) + 1 * (15 * 60 * 1000))
      by lia.
    now rewrite Z.mod_add by lia.
Qed.

Lemma same_local_day tz (c s : Date) :
  c <= s <= endOfDay tz c ->
  startOfLocalDay tz s = startOfLocalDay tz c /\ getDay tz s = getDay tz c.
Proof.
  unfold endOfDay, startOfLocalDay, getDay, msPerDay. intros H.
  assert ((s + tz) / (1000 * 60 * 60 * 24) = (c + tz) / (1000 * 60 * 60 * 24))
    as Hq by (Z.div_mod_to_equations; lia).
  rewrite Hq. split; [|reflexivity].
  Z.div_mod_to_equations; lia.
Qed.

Lemma parseTime_same_day tz d d' hhmm :
  startOfLocalDay tz d = startOfLocalDay tz d' ->
  parseTime tz d hhmm = parseTime tz d' hhmm.
Proof.
  unfold parseTime, setHours. intros ->. reflexivity.
Qed.

Lemma findAvailableSlotsLoop_within tz settings events end_ durationMinutes fuel :
  forall current slot,
    In slot (findAvailableSlotsLoop tz settings fuel events end_ durationMinutes current) ->
    slotWithin tz settings current end_ durationMinutes slot.
Proof.
  induction fuel as [|fuel IH]; intros current slot Hin;
    cbn [findAvailableSlotsLoop] in Hin; [easy|].
  destruct (current <? end_) eqn:Hlt; [|easy].
  apply in_app_or in Hin. destruct Hin as [Hin|Hin].
  - unfold getWorkingHoursForDate in Hin.
    destruct (existsb _ _) eqn:Hday; [|easy].
    unfold findSlotsInRange in Hin. apply findSlotsLoop_bounds in Hin.
    destruct Hin as (Hlo & Hhi & Hstart & _).
    set (wh := CalendarSettings.workingHours settings) in *.
    assert (Hsame : current <= TimeSlot.start slot <= endOfDay tz current).
    { split.
      - destruct (parseTime tz current (WorkingHours.start wh)) as [ws|];
          [destruct (Z.gtb_spec ws current)|]; lia.
      - destruct (parseTime tz current (WorkingHours.end_ wh)) as [we|];
          [match type of Hstart with
           | context [?a <? ?b] => destruct (Z.ltb_spec a b)
           end|];
          destruct (Z.ltb_spec (endOfDay tz current) end_); lia. }
    destruct (same_local_day tz _ _ Hsame) as [Hsod Hdow].
    unfold slotWithin. fold wh.
    rewrite !(parseTime_same_day tz (TimeSlot.start slot) current) by assumption.
    rewrite Hdow. split; [apply Hsame|]. split.
    { destruct (parseTime tz current (WorkingHours.end_ wh)) as [we|];
        [match type of Hhi with
         | context [?a <? ?b] => destruct (Z.ltb_spec a b)
         end|];
        destruct (Z.ltb_spec (endOfDay tz current) end_); lia. }
    split.
    { apply existsb_exists in Hday. destruct Hday as (x & Hx & Heq).
      apply Z.eqb_eq in Heq. now subst x. }
    split.
    + intros ws Hws. rewrite Hws in Hlo.
      destruct (Z.gtb_spec ws current); lia.
    + intros we Hwe. rewrite Hwe in Hhi.
      match type of Hhi with
      | context [?a <? ?b] => destruct (Z.ltb_spec a b)
      end; lia.
  - apply IH in Hin. destruct (startOfNextDay_dayIndex tz current) as [_ Hnext].
    unfold slotWithin in *. intuition lia.
Qed.

Lemma findAvailableSlots_within tz settings events start end_ durationMinutes slot :
  In slot (findAvailableSlots tz settings events start end_ durationMinutes) ->
  slotWithin tz settings start end_ durationMinutes slot.
Proof. apply findAvailableSlotsLoop_within. Qed.

(** What a successful attempt returns: the best of the slots found in the
    window that starts at the later of the clock reading and the creation time
    and ends at the deadline, or 14 days later when there is none. *)
Lemma scheduleTask_scheduled_best tz clock settings task w start end_ confidence :
  fst (scheduleTask tz clock settings task w) = Scheduled start end_ confidence ->
  let now := clock (clockReads w) in
  let windowStart := Z.max now (Task.createdAt task) in
  let windowEnd := match Task.deadline task with
                   | Some d => d
                   | None => windowStart + 14 * msPerDay
                   end in
  exists first rest,
    findAvailableSlots tz settings (existingEvents w) windowStart windowEnd
      (Task.estimatedDuration task) = first :: rest
    /\ start = TimeSlot.start (selectBestTimeSlot tz (existingEvents w) first rest task)
    /\ end_ = TimeSlot.end_ (selectBestTimeSlot tz (existingEvents w) first rest task)
    /\ confidence
       = calculateSchedulingConfidence tz
           (selectBestTimeSlot tz (existingEvents w) first rest task) task.
Proof.
  intros H now windowStart windowEnd. subst windowEnd windowStart now.
  unfold scheduleTask, calculateSchedulingWindow, suggestAlternativeTime in H.
  unfold bind, readExistingEvents, newDate, ret, addDays in H.
  cbn [fst snd existingEvents] in H.
  destruct (fst (checkDependencies (existingEvents w) task)); cbn [negb] in H;
    [|discriminate H].
  match type of H with
  | context [findAvailableSlots ?a ?b ?c ?d ?e ?f] =>
      destruct (findAvailableSlots a b c d e f) as [|first rest] eqn:Hslots
  end; cbn [fst] in H; [discriminate H|].
  injection H as <- <- <-.
  exists first, rest. split; [|auto].
  replace (Z.max (clock (clockReads w)) (Task.createdAt task))
    with (if clock (clockReads w) >? Task.createdAt task
          then clock (clockReads w) else Task.createdAt task)
    by (destruct (Z.gtb_spec (clock (clockReads w)) (Task.createdAt task)); lia).
  exact Hslots.
Qed.

Lemma scheduleTask_scheduled tz clock settings task w start end_ confidence :
  fst (scheduleTask tz clock settings task w) = Scheduled start end_ confidence ->
  let now := clock (clockReads w) in
  let windowStart := Z.max now (Task.createdAt task) in
  let windowEnd := match Task.deadline task with
                   | Some d => d
                   | None => windowStart + 14 * msPerDay
                   end in
  exists slot,
    In slot (findAvailableSlots tz settings (existingEvents w) windowStart windowEnd
               (Task.estimatedDuration task))
    /\ start = TimeSlot.start slot
    /\ end_ = TimeSlot.end_ slot
    /\ confidence = calculateSchedulingConfidence tz slot task.
Proof.
  intros H now windowStart windowEnd.
  destruct (scheduleTask_scheduled_best _ _ _ _ _ _ _ _ H)
    as (first & rest & Hslots & Hs & He & Hc).
  exists (selectBestTimeSlot tz (existingEvents w) first rest task).
  split; [|auto]. subst windowEnd windowStart now.
  rewrite Hslots. apply selectBestTimeSlot_In.
Qed.

(** Every placement of a pass satisfies what every successful attempt on a
    task of the batch guarantees. *)
Lemma scheduleLoop_each_placement tz clock settings
    (P : Task.t -> ScheduledTask.t -> Prop) (pool : list Task.t) :
  (forall task w start end_ confidence,
     In task pool ->
     fst (scheduleTask tz clock settings task w) = Scheduled start end_ confidence ->
     P task (ScheduledTask.mk (Task.id task) start end_ confidence)) ->
  forall flexibleTasks result w,
    incl flexibleTasks pool ->
    Forall (fun p => exists task, In task pool /\ P task p)
      (SchedulingResult.scheduledTasks result) ->
    Forall (fun p => exists task, In task pool /\ P task p)
      (SchedulingResult.scheduledTasks
         (fst (scheduleLoop tz clock settings flexibleTasks result w))).
Proof.
  intros Hattempt. induction flexibleTasks as [|task rest IH];
    intros result w Hincl Hresult; [exact Hresult|].
  cbn [scheduleLoop]. unfold bind. rewrite scheduleStep_eq. cbv zeta.
  apply IH; [intros t Ht; apply Hincl; now right|].
  unfold record. cbn [SchedulingResult.scheduledTasks flat_map].
  rewrite app_nil_r. apply Forall_app. split; [exact Hresult|].
  unfold placementOf. cbn [fst snd].
  destruct (fst (scheduleTask tz clock settings task w)) as [s e c|r st] eqn:Ha;
    constructor; [|constructor].
  exists task. split; [apply Hincl; now left|].
  apply (Hattempt task w); [apply Hincl; now left | exact Ha].
Qed.

Lemma scheduleAllTasks_each_placement tz clock settings
    (P : Task.t -> ScheduledTask.t -> Prop) w :
  (forall task w' start end_ confidence,
     In task (tasksArray w) ->
     fst (scheduleTask tz clock settings task w') = Scheduled start end_ confidence ->
     P task (ScheduledTask.mk (Task.id task) start end_ confidence)) ->
  Forall (fun p => exists task, In task (tasksArray w) /\ P task p)
    (SchedulingResult.scheduledTasks (fst (scheduleAllTasks tz clock settings w))).
Proof.
  intros Hattempt. rewrite scheduleAllTasks_eq. cbv zeta.
  cbn [fst SchedulingResult.scheduledTasks].
  apply scheduleLoop_each_placement; [exact Hattempt| |constructor].
  intros t Ht. apply filter_In in Ht.
  eapply Permutation_in; [symmetry; apply prioritizeTasks_Permutation|].
  exact (proj1 Ht).
Qed.

(** X1: every committed placement starts on a configured working day, no
    earlier than that day's opening time, and the placement followed by the
    buffer ends no later than that day's closing time (for working hours
    that parse). *)
Theorem placements_within_working_hours tz clock settings w :
  let workingHours := CalendarSettings.workingHours settings in
  Forall
    (fun p =>
       In (getDay tz (ScheduledTask.start p)) (WorkingHours.daysOfWeek workingHours)
       /\ (forall opening,
             parseTime tz (ScheduledTask.start p) (WorkingHours.start workingHours)
             = Some opening -> opening <= ScheduledTask.start p)
       /\ (forall closing,
             parseTime tz (ScheduledTask.start p) (WorkingHours.end_ workingHours)
             = Some closing ->
             ScheduledTask.end_ p + CalendarSettings.bufferTime settings * msPerMinute
             <= closing))
    (SchedulingResult.scheduledTasks (fst (scheduleAllTasks tz clock settings w))).
Proof.
  intros workingHours.
  eapply Forall_impl;
    [|apply (scheduleAllTasks_each_placement tz clock settings
               (fun task p =>
                  In (getDay tz (ScheduledTask.start p))
                    (WorkingHours.daysOfWeek workingHours)
                  /\ (forall opening,
                        parseTime tz (ScheduledTask.start p)
                          (WorkingHours.start workingHours) = Some opening ->
                        opening <= ScheduledTask.start p)
                  /\ (forall closing,
                        parseTime tz (ScheduledTask.start p)
                          (WorkingHours.end_ workingHours) = Some closing ->
                        ScheduledTask.end_ p
                        + CalendarSettings.bufferTime settings * msPerMinute
                        <= closing))
               w)].
  - intros p (task & _ & H). exact H.
  - intros task w' start end_ confidence _ Ha.
    apply scheduleTask_scheduled in Ha. destruct Ha as (slot & Hin & -> & -> & _).
    pose proof (findAvailableSlots_clear _ _ _ _ _ _ _ Hin) as [Hend _].
    apply findAvailableSlots_within in Hin.
    destruct Hin as (_ & _ & Hday & Hopen & Hclose).
    cbn [ScheduledTask.start ScheduledTask.end_].
    split; [exact Hday|]. split; [exact Hopen|].
    intros closing Hc. specialize (Hclose closing Hc).
    rewrite Hend. unfold addMinutes, msPerMinute in *. lia.
Qed.

(** X2: for one reference instant [now], every committed placement belongs to
    a task of the batch, lasts exactly the task's estimated duration, starts
    no earlier than the later of [now] and the task's creation time, and,
    followed by the buffer, ends no later than the task's deadline or, when
    the task has no deadline, than the instant [addDays] gives for 14 days
    after that start of the search (14 times 24 hours later when the zone's
    offset from UTC does not change in between, as with the fixed offset
    [tz]). *)
Theorem placements_within_search_window tz clock settings now w :
  frozen clock now ->
  Forall
    (fun p =>
       exists task,
         In task (tasksArray w)
         /\ ScheduledTask.taskId p = Task.id task
         /\ ScheduledTask.end_ p
            = ScheduledTask.start p + Task.estimatedDuration task * msPerMinute
         /\ Z.max now (Task.createdAt task) <= ScheduledTask.start p
         /\ ScheduledTask.end_ p + CalendarSettings.bufferTime settings * msPerMinute
            <= match Task.deadline task with
               | Some deadline => deadline
               | None => addDays (Z.max now (Task.createdAt task)) 14
               end)
    (SchedulingResult.scheduledTasks (fst (scheduleAllTasks tz clock settings w))).
Proof.
  intros Hfrozen.
  apply (scheduleAllTasks_each_placement tz clock settings
           (fun task p =>
              ScheduledTask.taskId p = Task.id task
              /\ ScheduledTask.end_ p
                 = ScheduledTask.start p + Task.estimatedDuration task * msPerMinute
              /\ Z.max now (Task.createdAt task) <= ScheduledTask.start p
              /\ ScheduledTask.end_ p
                 + CalendarSettings.bufferTime settings * msPerMinute
                 <= match Task.deadline task with
                    | Some deadline => deadline
                    | None => addDays (Z.max now (Task.createdAt task)) 14
                    end)).
  intros task w' start end_ confidence _ Ha.
  apply scheduleTask_scheduled in Ha. rewrite Hfrozen in Ha.
  destruct Ha as (slot & Hin & -> & -> & _).
  pose proof (findAvailableSlots_clear _ _ _ _ _ _ _ Hin) as [Hend _].
  apply findAvailableSlots_within in Hin. destruct Hin as (Hlo & Hhi & _).
  cbn [ScheduledTask.start ScheduledTask.end_ ScheduledTask.taskId].
  rewrite Hend. unfold addMinutes, addDays, msPerMinute in *.
  split; [reflexivity|]. split; [reflexivity|]. split; [assumption|].
  destruct (Task.deadline task); lia.
Qed.

Lemma placements_within_search_window_witness :
  Forall
    (fun p =>
       exists task,
         In task (tasksArray twoTasks)
         /\ ScheduledTask.taskId p = Task.id task
         /\ ScheduledTask.end_ p
            = ScheduledTask.start p + Task.estimatedDuration task * msPerMinute
         /\ Z.max mondayAfternoon (Task.createdAt task) <= ScheduledTask.start p
         /\ ScheduledTask.end_ p
            + CalendarSettings.bufferTime (officeSettings weekdays 15) * msPerMinute
            <= match Task.deadline task with
               | Some deadline => deadline
               | None => addDays (Z.max mondayAfternoon (Task.createdAt task)) 14
               end)
    (SchedulingResult.scheduledTasks
       (fst (scheduleAllTasks 0 (frozenAt mondayAfternoon)
               (officeSettings weekdays 15) twoTasks))).
Proof.
  exact (placements_within_search_window 0 (frozenAt mondayAfternoon)
           (officeSettings weekdays 15) mondayAfternoon twoTasks
           (fun k => eq_refl)).
Defined.

(** ** Attempts that can never succeed *)

Lemma scheduleTask_not_scheduled tz clock settings task w :
  (forall start end_ confidence,
     fst (scheduleTask tz clock settings task w) <> Scheduled start end_ confidence) ->
  exists reason suggestedTime,
    fst (scheduleTask tz clock settings task w) = NotScheduled reason suggestedTime.
Proof.
  intros Hnot.
  destruct (fst (scheduleTask tz clock settings task w)) as [s e c|r st].
  - now elim (Hnot s e c).
  - now exists r, st.
Qed.

(** X3: a task whose deadline is not later than both the clock reading of the
    attempt and the task's creation time is never placed, whatever the
    calendar and the working hours: its search window is empty. *)
Theorem expired_deadline_never_placed tz clock settings task w deadline :
  Task.deadline task = Some deadline ->
  deadline <= Z.max (clock (clockReads w)) (Task.createdAt task) ->
  exists reason suggestedTime,
    fst (scheduleTask tz clock settings task w) = NotScheduled reason suggestedTime.
Proof.
  intros Hdeadline Hpast. apply scheduleTask_not_scheduled.
  intros start end_ confidence Ha.
  apply scheduleTask_scheduled in Ha. destruct Ha as (slot & Hin & _).
  rewrite Hdeadline, findAvailableSlots_unfold in Hin.
  destruct (Z.ltb_spec (Z.max (clock (clockReads w)) (Task.createdAt task)) deadline);
    [lia | destruct Hin].
Qed.

Lemma expired_deadline_never_placed_witness :
  exists reason suggestedTime,
    fst (scheduleTask 0 (frozenAt mondayAfternoon) (officeSettings weekdays 15)
           (Task.mk "O" "Overdue" high 30 (Some monday) 0 None true)
           (mkWorld [] [] 0))
    = NotScheduled reason suggestedTime.
Proof.
  apply (expired_deadline_never_placed 0 (frozenAt mondayAfternoon)
           (officeSettings weekdays 15)
           (Task.mk "O" "Overdue" high 30 (Some monday) 0 None true)
           (mkWorld [] [] 0) monday eq_refl).
  vm_compute. discriminate.
Defined.

Lemma parseTime_parsed tz d hhmm h m :
  parseInt (nth_error (split ":" hhmm) 0) = Some h ->
  parseInt (nth_error (split ":" hhmm) 1) = Some m ->
  parseTime tz d hhmm = Some (startOfLocalDay tz d + h * msPerHour + m * msPerMinute).
Proof. unfold parseTime, setHours. now intros -> ->. Qed.

(** X4: a task is never placed when on every day the working day is too
    short for it: the time that passes from the instant the working hours
    open to the instant they close (both as [setHours] places them on that
    day, from the HH:MM strings) is less than the estimated duration plus the
    buffer.  This holds whatever the calendar, the deadline and the clock. *)
Theorem task_longer_than_working_day_never_placed tz clock settings task w :
  let workingHours := CalendarSettings.workingHours settings in
  (forall day, exists opening closing,
     parseTime tz day (WorkingHours.start workingHours) = Some opening
     /\ parseTime tz day (WorkingHours.end_ workingHours) = Some closing
     /\ closing - opening
        < (Task.estimatedDuration task + CalendarSettings.bufferTime settings)
          * msPerMinute) ->
  exists reason suggestedTime,
    fst (scheduleTask tz clock settings task w) = NotScheduled reason suggestedTime.
Proof.
  intros workingHours Hshort. apply scheduleTask_not_scheduled.
  intros start end_ confidence Ha.
  apply scheduleTask_scheduled in Ha. destruct Ha as (slot & Hin & _).
  apply findAvailableSlots_within in Hin.
  destruct Hin as (_ & _ & _ & Hopen & Hclose).
  destruct (Hshort (TimeSlot.start slot)) as (opening & closing & Ho & Hc & Hlt).
  specialize (Hopen _ Ho). specialize (Hclose _ Hc).
  unfold addMinutes, msPerMinute in *. lia.
Qed.

Lemma task_longer_than_working_day_never_placed_witness :
  exists reason suggestedTime,
    fst (scheduleTask 0 (frozenAt mondayAfternoon) (officeSettings weekdays 15)
           (plainTask "W" high 470) (mkWorld [] [] 0))
    = NotScheduled reason suggestedTime.
Proof.
  apply (task_longer_than_working_day_never_placed 0 (frozenAt mondayAfternoon)
           (officeSettings weekdays 15) (plainTask "W" high 470) (mkWorld [] [] 0)).
  intros day.
  exists (startOfLocalDay 0 day + 9 * msPerHour + 0 * msPerMinute),
         (startOfLocalDay 0 day + 17 * msPerHour + 0 * msPerMinute).
  split; [apply parseTime_parsed; reflexivity|].
  split; [apply parseTime_parsed; reflexivity|].
  simpl. unfold msPerHour, msPerMinute. lia.
Defined.

(** ** The order of the candidate slots *)

Lemma StronglySorted_app {A} (R : A -> A -> Prop) (l1 l2 : list A) :
  StronglySorted R l1 -> StronglySorted R l2 ->
  (forall a b, In a l1 -> In b l2 -> R a b) ->
  StronglySorted R (l1 ++ l2).
Proof.
  intros H1 H2 Hcross. induction H1 as [|a l1 Hs IH Ha]; [exact H2|].
  simpl. constructor.
  - apply IH. intros x y Hx. apply Hcross. now right.
  - apply Forall_app. split; [exact Ha|].
    apply Forall_forall. intros y Hy. apply Hcross; [now left | exact Hy].
Qed.

Lemma findSlotsLoop_sorted events end_ durationMinutes slotDuration fuel :
  forall current,
    StronglySorted (fun a b => TimeSlot.start a < TimeSlot.start b)
      (findSlotsLoop fuel events end_ durationMinutes slotDuration current).
Proof.
  induction fuel as [|fuel IH]; intros current; simpl; [constructor|].
  destruct (current <=? end_); [|constructor].
  destruct (addMinutes current slotDuration >? end_); [constructor|].
  apply StronglySorted_app; [|apply IH|].
  - destruct (findConflicts events current _); repeat constructor.
  - intros a b Ha Hb. apply findSlotsLoop_bounds in Hb.
    destruct (findConflicts events current _); [|destruct Ha].
    destruct Ha as [<-|[]]. simpl. unfold slotStep in *. lia.
Qed.

Lemma later_of_ge (o : option Date) (current : Date) :
  current <= match o with
             | Some ws => if ws >? current then ws else current
             | None => current
             end.
Proof. destruct o as [ws|]; [destruct (Z.gtb_spec ws current)|]; lia. Qed.

Lemma earlier_of_le (o : option Date) (searchEnd : Date) :
  match o with
  | Some we => if we <? searchEnd then we else searchEnd
  | None => searchEnd
  end <= searchEnd.
Proof. destruct o as [we|]; [destruct (Z.ltb_spec we searchEnd)|]; lia. Qed.

Lemma findAvailableSlotsLoop_sorted tz settings events end_ durationMinutes fuel :
  forall current,
    StronglySorted (fun a b => TimeSlot.start a < TimeSlot.start b)
      (findAvailableSlotsLoop tz settings fuel events end_ durationMinutes current).
Proof.
  induction fuel as [|fuel IH]; intros current; cbn [findAvailableSlotsLoop];
    [constructor|].
  destruct (current <? end_); [|constructor].
  apply StronglySorted_app; [|apply IH|].
  - destruct (getWorkingHoursForDate tz settings current); [|constructor].
    apply findSlotsLoop_sorted.
  - intros a b Ha Hb.
    apply findAvailableSlotsLoop_within in Hb. destruct Hb as [Hb _].
    destruct (getWorkingHoursForDate tz settings current); [|destruct Ha].
    unfold findSlotsInRange in Ha. apply findSlotsLoop_bounds in Ha.
    destruct Ha as (_ & _ & Ha & _).
    match type of Ha with
    | _ <= match ?o with _ => _ end =>
        pose proof (earlier_of_le o
                      (if endOfDay tz current <? end_
                       then endOfDay tz current else end_)) as Hle
    end.
    assert (TimeSlot.start a <= endOfDay tz current)
      by (destruct (Z.ltb_spec (endOfDay tz current) end_); cbv iota in *;
          (eapply Z.le_trans; [exact Ha|]); (eapply Z.le_trans; [exact Hle|]); lia).
    unfold endOfDay, startOfNextDay in *. lia.
Qed.

(** X5: the slot search lists its candidates in strictly increasing order of
    start time (earliest day first, earliest time first), so no start time
    occurs twice. *)
Theorem findAvailableSlots_increasing tz settings events start end_ durationMinutes :
  StronglySorted (fun a b => TimeSlot.start a < TimeSlot.start b)
    (findAvailableSlots tz settings events start end_ durationMinutes).
Proof.
  unfold findAvailableSlots. apply findAvailableSlotsLoop_sorted.
Qed.

(** ** Which slot wins *)

Lemma Qgtb_true (a b : Q) : Qgtb a b = true -> (b < a)%Q.
Proof.
  unfold Qgtb. intros H. apply negb_true_iff in H.
  apply Qnot_le_lt. intros Hle. apply Qle_bool_iff in Hle. congruence.
Qed.

Lemma Qgtb_false (a b : Q) : Qgtb a b = false -> (a <= b)%Q.
Proof.
  unfold Qgtb. intros H. apply negb_false_iff in H. now apply Qle_bool_iff.
Qed.

Lemma fold_best (score : TimeSlot.t -> Q) (rest : list TimeSlot.t) :
  forall before best between,
    (forall s, In s before -> (score s < score best)%Q) ->
    (forall s, In s between -> (score s <= score best)%Q) ->
    exists before' after',
      before ++ best :: between ++ rest
      = before'
        ++ fold_left (fun best current =>
                        if Qgtb (score current) (score best) then current else best)
             rest best
        :: after'
      /\ (forall s, In s before' ->
            (score s < score (fold_left
                                (fun best current =>
                                   if Qgtb (score current) (score best)
                                   then current else best) rest best))%Q)
      /\ (forall s, In s after' ->
            (score s <= score (fold_left
                                 (fun best current =>
                                    if Qgtb (score current) (score best)
                                    then current else best) rest best))%Q).
Proof.
  induction rest as [|current rest IH]; intros before best between Hlt Hle.
  - exists before, between. rewrite app_nil_r. auto.
  - cbn [fold_left]. destruct (Qgtb (score current) (score best)) eqn:E.
    + apply Qgtb_true in E.
      destruct (IH (before ++ best :: between) current []) as (b' & a' & Heq & H1 & H2).
      * intros s Hs. apply in_app_or in Hs. destruct Hs as [Hs|[<-|Hs]].
        -- eapply Qlt_trans; [apply Hlt, Hs | exact E].
        -- exact E.
        -- eapply Qle_lt_trans; [apply Hle, Hs | exact E].
      * intros s [].
      * exists b', a'. split; [|auto].
        rewrite <- Heq. cbn [app]. rewrite <- !app_assoc. reflexivity.
    + apply Qgtb_false in E.
      destruct (IH before best (between ++ [current])) as (b' & a' & Heq & H1 & H2).
      * exact Hlt.
      * intros s Hs. apply in_app_or in Hs. destruct Hs as [Hs|[<-|[]]]; auto.
      * exists b', a'. split; [|auto].
        rewrite <- Heq, <- app_assoc. reflexivity.
Qed.

(** X6: the slot [selectBestTimeSlot] returns has the highest score of all
    candidates, and among the candidates with that score it is the first in
    the list: every candidate before it scores strictly less, every candidate
    after it scores at most as much. *)
Theorem selectBestTimeSlot_first_maximum tz events task first rest :
  let score := fun slot => scoreTimeSlot tz events slot task in
  let best := selectBestTimeSlot tz events first rest task in
  exists before after,
    first :: rest = before ++ best :: after
    /\ (forall s, In s before -> (score s < score best)%Q)
    /\ (forall s, In s after -> (score s <= score best)%Q).
Proof.
  intros score best.
  destruct (fold_best score rest [] first []) as (b & a & Heq & H1 & H2);
    [intros s [] | intros s [] |].
  exists b, a. exact (conj Heq (conj H1 H2)).
Qed.

(** ** Bounds on scores and confidences *)

Lemma Math_min_ge (a b c : Q) : (c <= a)%Q -> (c <= b)%Q -> (c <= Math_min a b)%Q.
Proof. unfold Math_min. now destruct (Qle_bool a b). Qed.

Lemma getBufferAfter_nonneg events slot : (0 <= getBufferAfter events slot)%Q.
Proof.
  unfold getBufferAfter.
  destruct (find _ events) as [e|] eqn:Hfind; [|discriminate].
  apply find_some in Hfind. destruct Hfind as [_ Hge].
  rewrite Z.geb_leb in Hge. apply Z.leb_le in Hge.
  unfold Qle, Qdiv, Qmult, Qinv, inject_Z, msPerMinute. simpl. lia.
Qed.

(** X7: the score of a slot is the sum of three parts, none of them
    negative: at most 10 for the time of day, at most 10 for the deadline and
    at most 5 for the buffer after the slot; so the score lies between 0 and
    25. *)
Theorem scoreTimeSlot_bounds tz events slot task :
  (scoreTimeSlot tz events slot task
   == earlyInDayScore tz slot task + deadlineScore slot task
      + bufferScore events slot
   /\ 0 <= earlyInDayScore tz slot task <= 10
   /\ 0 <= deadlineScore slot task <= 10
   /\ 0 <= bufferScore events slot <= 5
   /\ 0 <= scoreTimeSlot tz events slot task <= 25)%Q.
Proof.
  assert (Hearly : (0 <= earlyInDayScore tz slot task <= 10)%Q).
  { unfold earlyInDayScore. destruct (Task.priority task);
      try (split; discriminate).
    destruct (_ <? 12); [split; discriminate|].
    destruct (_ <? 15); split; discriminate. }
  assert (Hdeadline : (0 <= deadlineScore slot task <= 10)%Q).
  { split; [|apply deadlineScore_at_most_10].
    unfold deadlineScore. destruct (Task.deadline task) as [d|]; [|discriminate].
    destruct (Qgtb _ 0) eqn:E; [|discriminate].
    apply Qgtb_true in E. apply Math_min_ge; [|discriminate].
    unfold Qlt, Qle, Qdiv, Qmult, Qinv, inject_Z, msPerHour in *. simpl in *. lia. }
  assert (Hbuffer : (0 <= bufferScore events slot <= 5)%Q).
  { unfold bufferScore. split; [|apply Math_min_le_r].
    apply Math_min_ge; [|discriminate].
    pose proof (getBufferAfter_nonneg events slot) as H.
    unfold Qle, Qdiv, Qmult, Qinv in *. simpl in *. lia. }
  split; [unfold scoreTimeSlot; now rewrite Qplus_0_l|].
  split; [exact Hearly|]. split; [exact Hdeadline|]. split; [exact Hbuffer|].
  unfold scoreTimeSlot.
  destruct Hearly as [E1 E2], Hdeadline as [D1 D2], Hbuffer as [B1 B2].
  split.
  - rewrite Qplus_0_l.
    apply (Qle_trans _ (0 + 0 + 0)); [discriminate|].
    repeat apply Qplus_le_compat; assumption.
  - rewrite Qplus_0_l.
    apply (Qle_trans _ (10 + 10 + 5)); [|discriminate].
    repeat apply Qplus_le_compat; assumption.
Qed.

Lemma hoursToDeadline_gt (d k : Z) :
  Qgtb (inject_Z d / inject_Z msPerHour) (inject_Z k) = (k * msPerHour <? d).
Proof.
  unfold Qgtb, Qle_bool, Qdiv, Qmult, Qinv, msPerHour. simpl.
  destruct (Z.leb_spec (d * 1) (k * 3600000)), (Z.ltb_spec (k * 3600000) d);
    simpl; lia.
Qed.

(** The clamp at the end of [calculateSchedulingConfidence] returns its
    argument: the confidence is the plain sum of the base and the
    adjustments. *)
Lemma calculateSchedulingConfidence_unclamped tz slot task :
  (calculateSchedulingConfidence tz slot task
   == confidenceBeforeClamp tz (TimeSlot.start slot) task)%Q.
Proof.
  unfold calculateSchedulingConfidence, confidenceBeforeClamp. cbv zeta.
  rewrite (Z.gtb_ltb (getHours tz (TimeSlot.start slot)) 18).
  change 48%Q with (inject_Z 48).
  destruct (Task.priority task), (Task.deadline task) as [d|];
    rewrite ?hoursToDeadline_gt;
    repeat match goal with
    | |- context [if ?c then _ else _] => destruct c
    end;
    reflexivity.
Qed.

Lemma confidenceBeforeClamp_bounds tz start task :
  (6 # 10 <= confidenceBeforeClamp tz start task <= 1)%Q.
Proof.
  unfold confidenceBeforeClamp.
  destruct (Task.priority task), (Task.deadline task) as [d|];
    repeat match goal with
    | |- context [if ?c then _ else _] => destruct c eqn:?
    end;
    try (split; vm_compute; discriminate);
    rewrite ?orb_true_iff, ?Z.ltb_lt, ?Z.ltb_ge in *; lia.
Qed.

(** X8: the confidence of every committed placement is the base confidence
    of 0.7 plus 0.2 for a high-priority task that starts before noon, plus
    0.1 for a deadline over 48 hours after the start, minus 0.1 for a start
    before 08:00 or from 19:00 on.  That sum lies between 0.6 and 1, so the
    clamp to [0, 1] in [calculateSchedulingConfidence] never cuts anything
    off, at either side. *)
Theorem placement_confidence_bounds tz clock settings w :
  Forall
    (fun p =>
       exists task,
         In task (tasksArray w)
         /\ ScheduledTask.taskId p = Task.id task
         /\ (ScheduledTask.confidence p
             == confidenceBeforeClamp tz (ScheduledTask.start p) task)%Q
         /\ (6 # 10 <= confidenceBeforeClamp tz (ScheduledTask.start p) task <= 1)%Q
         /\ (6 # 10 <= ScheduledTask.confidence p <= 1)%Q)
    (SchedulingResult.scheduledTasks (fst (scheduleAllTasks tz clock settings w))).
Proof.
  apply (scheduleAllTasks_each_placement tz clock settings
           (fun task p =>
              ScheduledTask.taskId p = Task.id task
              /\ (ScheduledTask.confidence p
                  == confidenceBeforeClamp tz (ScheduledTask.start p) task)%Q
              /\ (6 # 10 <= confidenceBeforeClamp tz (ScheduledTask.start p) task
                  <= 1)%Q
              /\ (6 # 10 <= ScheduledTask.confidence p <= 1)%Q) w).
  intros task w' start end_ confidence _ Ha.
  apply scheduleTask_scheduled in Ha. destruct Ha as (slot & _ & -> & _ & ->).
  cbn [ScheduledTask.taskId ScheduledTask.start ScheduledTask.confidence].
  pose proof (calculateSchedulingConfidence_unclamped tz slot task) as Heq.
  pose proof (confidenceBeforeClamp_bounds tz (TimeSlot.start slot) task) as Hb.
  split; [reflexivity|]. split; [exact Heq|]. split; [exact Hb|].
  rewrite Heq. exact Hb.
Qed.

(** ** Every flexible task is reported exactly once *)

Lemma Permutation_filter {A} (f : A -> bool) (l l' : list A) :
  Permutation l l' -> Permutation (filter f l) (filter f l').
Proof.
  induction 1 as [|x l l' _ IH|x y l|l l' l'' _ IH1 _ IH2]; simpl.
  - constructor.
  - destruct (f x); [now constructor | exact IH].
  - destruct (f x), (f y); try reflexivity. apply perm_swap.
  - now transitivity (filter f l').
Qed.

Lemma outcomes_partition (outs : list Outcome) :
  Permutation
    (map ScheduledTask.taskId (flat_map placementOf outs)
     ++ flat_map unscheduledOf outs)
    (map Task.id (map fst outs)).
Proof.
  induction outs as [|[task [s e c|r st]] outs IH];
    cbn [flat_map placementOf unscheduledOf fst snd map app]; [constructor| |].
  - now constructor.
  - apply Permutation_sym, Permutation_cons_app, Permutation_sym, IH.
Qed.

Lemma outcomes_conflicts (outs : list Outcome) :
  map Conflict.taskId (flat_map conflictOf outs) = flat_map unscheduledOf outs.
Proof.
  induction outs as [|[task [s e c|r st]] outs IH];
    cbn [flat_map conflictOf unscheduledOf fst snd map app]; [reflexivity|exact IH|].
  now rewrite IH.
Qed.

(** X9: the identifiers in [scheduledTasks] together with those in
    [unscheduledTasks] are exactly the identifiers of the flexible tasks of
    the batch, each task counted once; tasks that are not flexible are never
    reported; and [conflicts] lists the unscheduled identifiers in the same
    order as [unscheduledTasks]. *)
Theorem every_flexible_task_reported_once tz clock settings w :
  let result := fst (scheduleAllTasks tz clock settings w) in
  Permutation
    (map ScheduledTask.taskId (SchedulingResult.scheduledTasks result)
     ++ SchedulingResult.unscheduledTasks result)
    (map Task.id (filter Task.isFlexible (tasksArray w)))
  /\ map Conflict.taskId (SchedulingResult.conflicts result)
     = SchedulingResult.unscheduledTasks result.
Proof.
  intros result. subst result.
  destruct (scheduleAllTasks_pass tz clock settings w)
    as (outs & Hmap & Hres & _ & _).
  rewrite Hres. cbn [SchedulingResult.scheduledTasks
    SchedulingResult.unscheduledTasks SchedulingResult.conflicts].
  split; [|apply outcomes_conflicts].
  rewrite outcomes_partition, Hmap.
  apply Permutation_map, Permutation_filter, Permutation_sym,
    prioritizeTasks_Permutation.
Qed.

(** ** The suggestions of a pass *)

Lemma filterM_pure {A} (pM : A -> M bool) (p : A -> bool) (l : list A) :
  (forall a w, fst (pM a w) = p a) ->
  forall w, fst (filterM pM l w) = filter p l.
Proof.
  intros Hp. induction l as [|x l IH]; intros w; simpl; [reflexivity|].
  unfold bind, ret. specialize (Hp x w). destruct (pM x w) as [b w1].
  simpl in Hp. subst b. specialize (IH w1).
  destruct (filterM pM l w1) as [r w2]. simpl in *. now subst r.
Qed.

Lemma generateSuggestions_frozen clock now result tasks w :
  frozen clock now ->
  fst (generateSuggestions clock result tasks w)
  = suggestionsFor (List.length (SchedulingResult.unscheduledTasks result))
      (List.length (filter (deadlinePassed now) tasks)).
Proof.
  intros Hfrozen. unfold generateSuggestions, bind, ret.
  pose proof (filterM_pure
                (fun t => match Task.deadline t with
                          | Some d => now0 <- newDate clock ;; ret (d <? now0)
                          | None => ret false
                          end)
                (deadlinePassed now) tasks) as Hfilter.
  rewrite <- (Hfilter
                ltac:(intros t w'; unfold deadlinePassed, bind, newDate, ret;
                      destruct (Task.deadline t); simpl; now rewrite ?Hfrozen) w).
  destruct (filterM _ tasks w) as [overdue w1]. cbn [fst].
  unfold suggestionsFor.
  destruct (Nat.ltb 0 (List.length overdue)); [reflexivity|].
  now rewrite app_nil_r.
Qed.

(** X10: for one reference instant [now], the suggestions of a call are at
    most two, in this order: one of kind [extend_hours] carrying the number of
    unscheduled tasks when that number is not zero, and one of kind
    [adjust_deadlines] carrying the number of tasks of the whole batch
    (flexible or not, placed or not) whose deadline lies before [now] when
    that number is not zero. *)
Theorem suggestions_of_a_pass tz clock settings now w :
  frozen clock now ->
  let result := fst (scheduleAllTasks tz clock settings w) in
  SchedulingResult.suggestions result
  = suggestionsFor (List.length (SchedulingResult.unscheduledTasks result))
      (List.length (filter (deadlinePassed now) (tasksArray w))).
Proof.
  intros Hfrozen result. subst result.
  rewrite scheduleAllTasks_eq. cbv zeta.
  cbn [fst SchedulingResult.suggestions SchedulingResult.unscheduledTasks].
  rewrite (generateSuggestions_frozen clock now) by assumption.
  f_equal.
  destruct (scheduleLoop_pass tz clock settings
              (filter Task.isFlexible (fst (prioritizeTasks clock w)))
              (SchedulingResult.mk true [] [] [] []) (snd (prioritizeTasks clock w)))
    as (outs & _ & _ & _ & Harr).
  rewrite Harr, (proj2 (prioritizeTasks_store clock w)).
  apply Permutation_length, Permutation_filter, Permutation_sym,
    prioritizeTasks_Permutation.
Qed.

Lemma suggestions_of_a_pass_witness :
  SchedulingResult.suggestions
    (fst (scheduleAllTasks 0 (frozenAt mondayAfternoon) (officeSettings weekdays 15)
            twoTasks))
  = suggestionsFor
      (List.length
         (SchedulingResult.unscheduledTasks
            (fst (scheduleAllTasks 0 (frozenAt mondayAfternoon)
                    (officeSettings weekdays 15) twoTasks))))
      (List.length (filter (deadlinePassed mondayAfternoon) (tasksArray twoTasks))).
Proof.
  exact (suggestions_of_a_pass 0 (frozenAt mondayAfternoon) (officeSettings weekdays 15)
           mondayAfternoon twoTasks (fun k => eq_refl)).
Defined.

(** ** Satisfied dependencies *)

Lemma missingDependencies_nil events deps :
  missingDependencies events deps = [] <->
  forall depId, In depId deps ->
    exists e, In e events /\ CalendarEvent.taskId e = Some depId.
Proof.
  split.
  - intros Hnil depId Hin.
    destruct (find (fun e => match CalendarEvent.taskId e with
                             | Some i => String.eqb i depId
                             | None => false
                             end) events) as [e|] eqn:Hfind.
    + apply find_some in Hfind. destruct Hfind as [He Heq]. exists e.
      split; [exact He|].
      destruct (CalendarEvent.taskId e) as [i|]; [|discriminate].
      apply String.eqb_eq in Heq. now subst.
    + assert (In depId (missingDependencies events deps)) as Hmiss.
      { unfold missingDependencies. apply filter_In. now rewrite Hfind. }
      rewrite Hnil in Hmiss. destruct Hmiss.
  - intros Hall.
    destruct (missingDependencies events deps) as [|d rest] eqn:Hm; [reflexivity|].
    assert (In d (missingDependencies events deps)) as Hd by (rewrite Hm; now left).
    apply missingDependencies_In in Hd. destruct Hd as [Hin Hnone].
    destruct (Hall d Hin) as (e & He & Hid). now elim (Hnone e He).
Qed.

(** X11: the dependency check of a task passes exactly when every one of its
    dependency identifiers is the [taskId] of some event in the conflict set
    (a task without dependencies always passes); and then it reports no
    missing identifier. *)
Theorem checkDependencies_satisfied_iff events task :
  (fst (checkDependencies events task) = true <->
   forall deps, Task.dependencies task = Some deps ->
     forall depId, In depId deps ->
       exists e, In e events /\ CalendarEvent.taskId e = Some depId)
  /\ (fst (checkDependencies events task) = true ->
      snd (checkDependencies events task) = []).
Proof.
  unfold checkDependencies.
  destruct (Task.dependencies task) as [[|d deps]|]; cbn [fst snd].
  - split; [|reflexivity]. split; [|reflexivity].
    intros _ ds [= <-] x [].
  - split.
    + rewrite Nat.eqb_eq, length_zero_iff_nil, missingDependencies_nil. split.
      * intros H ds [= <-]. exact H.
      * intros H. now apply H.
    + rewrite Nat.eqb_eq, length_zero_iff_nil. auto.
  - split; [|reflexivity]. split; [|reflexivity]. intros _ ds [=].
Qed.

Lemma checkDependencies_found events task :
  (forall deps, Task.dependencies task = Some deps ->
     forall depId, In depId deps ->
       exists e, In e events /\ CalendarEvent.taskId e = Some depId) ->
  fst (checkDependencies events task) = true.
Proof.
  intros Hall. unfold checkDependencies.
  destruct (Task.dependencies task) as [[|d deps]|]; cbn [fst]; try reflexivity.
  apply Nat.eqb_eq, length_zero_iff_nil, missingDependencies_nil.
  now apply Hall.
Qed.

(** X12: once a task has been placed, every task whose dependencies are that
    task or tasks already on the calendar passes the dependency check for the
    rest of the pass, however many further events are appended. *)
Theorem placed_task_unblocks_its_dependents
    tz clock settings result task w start end_ confidence dependent later :
  fst (scheduleTask tz clock settings task w) = Scheduled start end_ confidence ->
  (forall deps, Task.dependencies dependent = Some deps ->
     forall depId, In depId deps ->
       depId = Task.id task
       \/ exists e, In e (existingEvents w) /\ CalendarEvent.taskId e = Some depId) ->
  fst (checkDependencies
         (existingEvents (snd (scheduleStep tz clock settings result task w)) ++ later)
         dependent) = true.
Proof.
  intros Ha Hdeps. apply checkDependencies_found.
  intros deps Hd depId Hin.
  rewrite scheduleStep_eq. cbv zeta. cbn [snd existingEvents]. rewrite Ha.
  destruct (scheduleTask_spec tz clock settings task w) as [_ [Hev _]].
  rewrite Hev. unfold eventOf. cbn [fst snd].
  destruct (Hdeps deps Hd depId Hin) as [->|(e & He & Hid)].
  - exists (taskEvent task start end_). split; [|reflexivity].
    apply in_or_app. left. apply in_or_app. right. now left.
  - exists e. split; [|exact Hid].
    apply in_or_app. left. apply in_or_app. now left.
Qed.

Lemma placed_task_unblocks_its_dependents_witness :
  fst (checkDependencies
         (existingEvents
            (snd (scheduleStep 0 (frozenAt mondayAfternoon) (officeSettings weekdays 15)
                    (SchedulingResult.mk true [] [] [] [])
                    (plainTask "A" high 30) (mkWorld [] [] 0))) ++ [])
         (Task.mk "B" "Follow-up" low 30 None 0 (Some ["A"]) true)) = true.
Proof.
  apply (placed_task_unblocks_its_dependents 0 (frozenAt mondayAfternoon)
           (officeSettings weekdays 15) (SchedulingResult.mk true [] [] [] [])
           (plainTask "A" high 30) (mkWorld [] [] 0)
           (monday + 33 * msPerHour) (monday + 33 * msPerHour + 30 * msPerMinute)
           (90 # 100)
           (Task.mk "B" "Follow-up" low 30 None 0 (Some ["A"]) true) []).
  - vm_compute. reflexivity.
  - intros deps [= <-] depId [<-|[]]. now left.
Defined.

(** ** The suggested alternative time *)

(** X13: the alternative time suggested after a failed slot search is
    exactly 09:00:00.000 local time on the calendar day after the clock
    reading, and so lies strictly after that reading; it is computed from the
    clock alone, and computing it leaves the calendar and the task array as
    they are. *)
Theorem suggestAlternativeTime_next_morning tz clock w :
  let now := clock (clockReads w) in
  let suggested := fst (suggestAlternativeTime tz clock w) in
  timeOfDay tz suggested = 9 * msPerHour
  /\ getHours tz suggested = 9
  /\ dayIndex tz suggested = dayIndex tz now + 1
  /\ now < suggested
  /\ sameArrays w (snd (suggestAlternativeTime tz clock w)).
Proof.
  unfold suggestAlternativeTime, bind, newDate, ret, addDays. cbn [fst snd].
  unfold timeOfDay, getHours, dayIndex, startOfLocalDay, msPerDay, msPerHour.
  set (now := clock (clockReads w)).
  split; [Z.div_mod_to_equations; lia|].
  split; [Z.div_mod_to_equations; lia|].
  split; [Z.div_mod_to_equations; lia|].
  split; [Z.div_mod_to_equations; lia|].
  split; reflexivity.
Qed.

(** ** The quarter-hour grid *)

Lemma startOfNextDay_is_midnight tz d :
  startOfLocalDay tz (startOfNextDay tz d) = startOfNextDay tz d.
Proof.
  unfold startOfNextDay, startOfLocalDay, msPerDay.
  Z.div_mod_to_equations. lia.
Qed.

Lemma findAvailableSlotsLoop_grid tz settings events start end_ durationMinutes
    openH openM fuel :
  let workingHours := CalendarSettings.workingHours settings in
  parseInt (nth_error (split ":" (WorkingHours.start workingHours)) 0) = Some openH ->
  parseInt (nth_error (split ":" (WorkingHours.start workingHours)) 1) = Some openM ->
  0 <= openH * 60 + openM ->
  forall current slot,
    startOfLocalDay tz current = current \/ current = start ->
    In slot (findAvailableSlotsLoop tz settings fuel events end_ durationMinutes current) ->
    (TimeSlot.start slot - start) mod slotStep = 0
    \/ (TimeSlot.start slot
        - (startOfLocalDay tz (TimeSlot.start slot)
           + openH * msPerHour + openM * msPerMinute)) mod slotStep = 0.
Proof.
  intros workingHours H1 H2 Hopen.
  induction fuel as [|fuel IH]; intros current slot Hcur Hin;
    cbn [findAvailableSlotsLoop] in Hin; [easy|].
  destruct (current <? end_); [|easy].
  apply in_app_or in Hin. destruct Hin as [Hin|Hin].
  - unfold getWorkingHoursForDate in Hin.
    destruct (existsb _ _); [|easy]. fold workingHours in Hin.
    rewrite (parseTime_parsed tz current _ _ _ H1 H2) in Hin.
    unfold findSlotsInRange in Hin. apply findSlotsLoop_bounds in Hin.
    destruct Hin as (Hlo & _ & Hhi & Hgrid).
    set (opening := startOfLocalDay tz current + openH * msPerHour
                    + openM * msPerMinute) in *.
    assert (Hsame : current <= TimeSlot.start slot <= endOfDay tz current).
    { split.
      - destruct (Z.gtb_spec opening current); lia.
      - eapply Z.le_trans; [exact Hhi|].
        eapply Z.le_trans; [apply earlier_of_le|].
        destruct (Z.ltb_spec (endOfDay tz current) end_); lia. }
    destruct (same_local_day tz _ _ Hsame) as [Hsod _]. rewrite Hsod. fold opening.
    destruct (Z.gtb_spec opening current) as [Hlater|Hearlier]; [now right|].
    destruct Hcur as [Hmidnight | ->]; [right | now left].
    replace opening with current; [exact Hgrid|].
    subst opening. unfold msPerHour, msPerMinute in *. lia.
  - apply IH in Hin; [exact Hin|]. left. apply startOfNextDay_is_midnight.
Qed.

(** X14: when the opening time parses and is not before midnight, every
    candidate slot starts a whole number of quarter hours after the opening
    time of its day, or a whole number of quarter hours after the start of
    the search window. *)
Theorem slots_on_quarter_hour_grid tz settings events start end_ durationMinutes
    openH openM :
  let workingHours := CalendarSettings.workingHours settings in
  parseInt (nth_error (split ":" (WorkingHours.start workingHours)) 0) = Some openH ->
  parseInt (nth_error (split ":" (WorkingHours.start workingHours)) 1) = Some openM ->
  0 <= openH * 60 + openM ->
  Forall
    (fun slot =>
       (TimeSlot.start slot - start) mod slotStep = 0
       \/ (TimeSlot.start slot
           - (startOfLocalDay tz (TimeSlot.start slot)
              + openH * msPerHour + openM * msPerMinute)) mod slotStep = 0)
    (findAvailableSlots tz settings events start end_ durationMinutes).
Proof.
  intros workingHours H1 H2 Hopen. apply Forall_forall. intros slot Hin.
  eapply (findAvailableSlotsLoop_grid tz settings events start end_ durationMinutes
            openH openM); try eassumption. now right.
Qed.

Lemma slots_on_quarter_hour_grid_witness :
  Forall
    (fun slot =>
       (TimeSlot.start slot - mondayAfternoon) mod slotStep = 0
       \/ (TimeSlot.start slot
           - (startOfLocalDay 0 (TimeSlot.start slot)
              + 9 * msPerHour + 0 * msPerMinute)) mod slotStep = 0)
    (findAvailableSlots 0 (officeSettings weekdays 15) [] mondayAfternoon
       (mondayAfternoon + 2 * msPerDay) 30).
Proof.
  apply (slots_on_quarter_hour_grid 0 (officeSettings weekdays 15) []
           mondayAfternoon (mondayAfternoon + 2 * msPerDay) 30 9 0 eq_refl eq_refl).
  lia.
Defined.

(** * Properties of the task utilities *)

Lemma getTaskUrgency_frozen clock now task w :
  frozen clock now ->
  fst (getTaskUrgency clock task w)
  = match Task.deadline task with
    | None => 0
    | Some d =>
        if d <? now then 100
        else if d - now <? 24 * msPerHour then 50
        else if d - now <? 48 * msPerHour then 25
        else if d - now <? 168 * msPerHour then 10
        else 1
    end.
Proof.
  intros Hfrozen. unfold getTaskUrgency, bind, newDate.
  destruct (Task.deadline task) as [d|]; [|reflexivity]. rewrite Hfrozen.
  change 0%Q with (inject_Z 0). change 24%Q with (inject_Z 24).
  change 48%Q with (inject_Z 48). change 168%Q with (inject_Z 168).
  rewrite !hoursToDeadline_lt.
  replace (d - now <? 0 * msPerHour) with (d <? now)
    by (destruct (Z.ltb_spec d now), (Z.ltb_spec (d - now) (0 * msPerHour)); lia).
  destruct (d <? now); [reflexivity|].
  destruct (d - now <? 24 * msPerHour); [reflexivity|].
  destruct (d - now <? 48 * msPerHour); [reflexivity|].
  destruct (d - now <? 168 * msPerHour); reflexivity.
Qed.

Lemma calculateTaskScore_frozen clock now task w :
  frozen clock now ->
  fst (calculateTaskScore clock task w)
  = getTaskPriorityWeight (Task.priority task) * 10
    + fst (getTaskUrgency clock task w).
Proof.
  intros _. unfold calculateTaskScore, bind, ret.
  now destruct (getTaskUrgency clock task w).
Qed.

Lemma calculateTaskScore_overdue clock now task w :
  frozen clock now ->
  (deadlinePassed now task = true -> 110 <= fst (calculateTaskScore clock task w))
  /\ (deadlinePassed now task = false -> fst (calculateTaskScore clock task w) <= 80).
Proof.
  intros Hfrozen.
  rewrite (calculateTaskScore_frozen clock now) by assumption.
  rewrite (getTaskUrgency_frozen clock now) by assumption.
  unfold deadlinePassed, getTaskPriorityWeight.
  destruct (Task.deadline task) as [d|], (Task.priority task);
    try destruct (d <? now);
    repeat match goal with
    | |- context [if ?c then _ else _] => destruct c
    end; split; intros; try discriminate; lia.
Qed.

Lemma calculateTaskScore_any_world clock now task w w' :
  frozen clock now ->
  fst (calculateTaskScore clock task w) = fst (calculateTaskScore clock task w').
Proof.
  intros Hfrozen.
  rewrite !(calculateTaskScore_frozen clock now) by assumption.
  now rewrite !(getTaskUrgency_frozen clock now) by assumption.
Qed.

Lemma clockOnly_calculateTaskScore clock task :
  clockOnly (calculateTaskScore clock task).
Proof.
  unfold calculateTaskScore, getTaskUrgency.
  destruct (Task.deadline task); auto 12 with clock.
Qed.

Lemma StronglySorted_impl {A} (R R' : A -> A -> Prop) (l : list A) :
  (forall a b, R a b -> R' a b) -> StronglySorted R l -> StronglySorted R' l.
Proof.
  intros Himpl. induction 1 as [|a l _ IH Ha]; constructor; [assumption|].
  eapply Forall_impl; [|exact Ha]. auto.
Qed.

(** X15: for one reference instant [now], [sortTasksByScore] returns a
    rearrangement of the tasks in which every task whose deadline has passed
    comes before every task whose deadline has not (or that has none),
    whatever the priorities; the array it was given is left unchanged. *)
Theorem sortTasksByScore_overdue_first clock now w :
  frozen clock now ->
  Permutation (tasksArray w) (fst (sortTasksByScore clock w))
  /\ tasksArray (snd (sortTasksByScore clock w)) = tasksArray w
  /\ StronglySorted
       (fun a b => deadlinePassed now b = true -> deadlinePassed now a = true)
       (fst (sortTasksByScore clock w)).
Proof.
  intros Hfrozen. unfold sortTasksByScore, bind, readTasks.
  set (compare := fun a b => scoreB <- calculateTaskScore clock b ;;
                             scoreA <- calculateTaskScore clock a ;;
                             ret (scoreB - scoreA)).
  set (score := fun t => fst (calculateTaskScore clock t w)).
  split; [apply sortM_Permutation|]. split.
  - apply (clockOnly_sortM compare (tasksArray w)).
    intros a b. unfold compare.
    auto using clockOnly_calculateTaskScore with clock.
  - rewrite (sortM_pure compare (fun a b => score b - score a)).
    + eapply StronglySorted_impl; [|apply sortBy_sorted].
      intros a b Hle Hb. cbv beta in Hle. subst score. cbv beta in Hle.
      destruct (calculateTaskScore_overdue clock now a w Hfrozen) as [_ Ha].
      destruct (calculateTaskScore_overdue clock now b w Hfrozen) as [Hb' _].
      destruct (deadlinePassed now a); [reflexivity|].
      specialize (Ha eq_refl). specialize (Hb' Hb). lia.
    + intros a b w'. unfold compare, bind, ret. subst score. cbv beta.
      rewrite (calculateTaskScore_any_world clock now b w w') by assumption.
      destruct (calculateTaskScore clock b w') as [sb w1]. cbn [fst].
      rewrite (calculateTaskScore_any_world clock now a w w1) by assumption.
      now destruct (calculateTaskScore clock a w1).
Qed.

Lemma sortTasksByScore_overdue_first_witness :
  let w := mkWorld []
             [plainTask "A" high 30;
              Task.mk "L" "Late" low 30 (Some monday) 0 None true] 0 in
  Permutation (tasksArray w) (fst (sortTasksByScore (frozenAt mondayAfternoon) w))
  /\ tasksArray (snd (sortTasksByScore (frozenAt mondayAfternoon) w)) = tasksArray w
  /\ StronglySorted
       (fun a b => deadlinePassed mondayAfternoon b = true ->
                   deadlinePassed mondayAfternoon a = true)
       (fst (sortTasksByScore (frozenAt mondayAfternoon) w)).
Proof.
  exact (sortTasksByScore_overdue_first (frozenAt mondayAfternoon) mondayAfternoon
           (mkWorld []
              [plainTask "A" high 30;
               Task.mk "L" "Late" low 30 (Some monday) 0 None true] 0)
           (fun k => eq_refl)).
Defined.

(** * Properties of [reorderTasks] *)

Lemma removeAt_insertAt {A} (i : nat) (x : A) (l : list A) :
  (i <= List.length l)%nat -> removeAt i (insertAt i x l) = l.
Proof.
  revert l. induction i as [|i IH]; intros l Hi.
  - reflexivity.
  - destruct l as [|y l]; [simpl in Hi; lia|].
    unfold removeAt, insertAt in *. simpl. f_equal. apply IH. simpl in Hi. lia.
Qed.

Lemma insertAt_removeAt {A} (i : nat) (x : A) (l : list A) :
  nth_error l i = Some x -> insertAt i x (removeAt i l) = l.
Proof.
  revert l. induction i as [|i IH]; intros l Hx.
  - destruct l as [|y l]; [discriminate|]. injection Hx as ->. reflexivity.
  - destruct l as [|y l]; [discriminate|].
    unfold removeAt, insertAt in *. simpl. f_equal. now apply IH.
Qed.

Lemma nth_error_insertAt {A} (i : nat) (x : A) (l : list A) :
  (i <= List.length l)%nat -> nth_error (insertAt i x l) i = Some x.
Proof.
  revert l. induction i as [|i IH]; intros l Hi; [reflexivity|].
  destruct l as [|y l]; [simpl in Hi; lia|].
  unfold insertAt in *. simpl. apply IH. simpl in Hi. lia.
Qed.

Lemma length_removeAt {A} (i : nat) (l : list A) :
  (i < List.length l)%nat -> S (List.length (removeAt i l)) = List.length l.
Proof.
  revert l. induction i as [|i IH]; intros l Hi;
    (destruct l as [|y l]; [simpl in Hi; lia|]).
  - reflexivity.
  - unfold removeAt in *. simpl. f_equal. apply IH. simpl in Hi. lia.
Qed.

Lemma length_insertAt {A} (i : nat) (x : A) (l : list A) :
  List.length (insertAt i x l) = S (List.length l).
Proof.
  unfold insertAt. rewrite <- (firstn_skipn i l) at 3.
  rewrite !length_app. simpl. lia.
Qed.

Lemma first_of_skipn {A} (i : nat) (x : A) (l : list A) :
  nth_error l i = Some x -> firstn 1 (skipn i l) = [x].
Proof.
  revert l. induction i as [|i IH]; intros l Hx;
    (destruct l as [|y l]; [discriminate|]).
  - injection Hx as ->. reflexivity.
  - simpl. now apply IH.
Qed.

(** A move between two positions of the list: take the element out, put it
    back in at the target index. *)
Lemma reorderTasks_in_range tasks fromIndex toIndex x :
  nth_error tasks (Z.to_nat fromIndex) = Some x ->
  0 <= fromIndex ->
  0 <= toIndex < Z.of_nat (List.length tasks) ->
  reorderTasks tasks fromIndex toIndex
  = insertAt (Z.to_nat toIndex) x (removeAt (Z.to_nat fromIndex) tasks).
Proof.
  intros Hx Hfrom Hto.
  assert (Hlt : (Z.to_nat fromIndex < List.length tasks)%nat)
    by (apply nth_error_Some; congruence).
  pose proof (length_removeAt _ _ Hlt) as Hlen.
  unfold reorderTasks, splice.
  destruct (Z.ltb_spec fromIndex 0); [lia|].
  replace (Z.to_nat (Z.min fromIndex (Z.of_nat (List.length tasks))))
    with (Z.to_nat fromIndex) by lia.
  replace (Z.to_nat (Z.min (Z.max 1 0)
                       (Z.of_nat (List.length tasks)
                        - Z.min fromIndex (Z.of_nat (List.length tasks)))))
    with 1%nat by lia.
  rewrite (first_of_skipn _ x) by assumption.
  rewrite Nat.add_1_r. cbn [app]. fold (removeAt (Z.to_nat fromIndex) tasks).
  destruct (Z.ltb_spec toIndex 0); [lia|]. cbn [snd].
  replace (Z.to_nat (Z.min toIndex
                       (Z.of_nat (List.length (removeAt (Z.to_nat fromIndex) tasks)))))
    with (Z.to_nat toIndex) by lia.
  match goal with
  | |- context [Z.to_nat (Z.min (Z.max 0 0) ?d)] =>
      replace (Z.to_nat (Z.min (Z.max 0 0) d)) with 0%nat by lia
  end.
  rewrite Nat.add_0_r. reflexivity.
Qed.

(** X16: moving a task between two valid indices keeps the length of the
    list, puts the moved task at the target index, and leaves all other tasks
    in their relative order. *)
Theorem reorderTasks_moves_one_task tasks fromIndex toIndex :
  0 <= fromIndex < Z.of_nat (List.length tasks) ->
  0 <= toIndex < Z.of_nat (List.length tasks) ->
  let moved := reorderTasks tasks fromIndex toIndex in
  List.length moved = List.length tasks
  /\ nth_error moved (Z.to_nat toIndex) = nth_error tasks (Z.to_nat fromIndex)
  /\ removeAt (Z.to_nat toIndex) moved = removeAt (Z.to_nat fromIndex) tasks.
Proof.
  intros Hfrom Hto moved. subst moved.
  assert (Hlt : (Z.to_nat fromIndex < List.length tasks)%nat) by lia.
  destruct (nth_error tasks (Z.to_nat fromIndex)) as [x|] eqn:Hx;
    [|apply nth_error_None in Hx; lia].
  pose proof (length_removeAt _ _ Hlt) as Hlen.
  rewrite (reorderTasks_in_range tasks fromIndex toIndex x) by (assumption || lia).
  rewrite length_insertAt, Hlen.
  split; [reflexivity|]. split.
  - apply nth_error_insertAt. lia.
  - apply removeAt_insertAt. lia.
Qed.

Lemma reorderTasks_moves_one_task_witness :
  let tasks := [Some (plainTask "A" high 30); Some (plainTask "B" low 30);
                Some (plainTask "C" low 45)] in
  List.length (reorderTasks tasks 0 2) = List.length tasks
  /\ nth_error (reorderTasks tasks 0 2) (Z.to_nat 2) = nth_error tasks (Z.to_nat 0)
  /\ removeAt (Z.to_nat 2) (reorderTasks tasks 0 2) = removeAt (Z.to_nat 0) tasks.
Proof.
  apply (reorderTasks_moves_one_task
           [Some (plainTask "A" high 30); Some (plainTask "B" low 30);
            Some (plainTask "C" low 45)] 0 2); simpl; lia.
Defined.

(** X17: a move between two valid indices is undone by the opposite move. *)
Theorem reorderTasks_round_trip tasks fromIndex toIndex :
  0 <= fromIndex < Z.of_nat (List.length tasks) ->
  0 <= toIndex < Z.of_nat (List.length tasks) ->
  reorderTasks (reorderTasks tasks fromIndex toIndex) toIndex fromIndex = tasks.
Proof.
  intros Hfrom Hto.
  assert (Hlt : (Z.to_nat fromIndex < List.length tasks)%nat) by lia.
  destruct (nth_error tasks (Z.to_nat fromIndex)) as [x|] eqn:Hx;
    [|apply nth_error_None in Hx; lia].
  pose proof (length_removeAt _ _ Hlt) as Hlen.
  rewrite (reorderTasks_in_range tasks fromIndex toIndex x) by (assumption || lia).
  rewrite (reorderTasks_in_range _ toIndex fromIndex x).
  - rewrite removeAt_insertAt by lia. now apply insertAt_removeAt.
  - apply nth_error_insertAt. lia.
  - lia.
  - rewrite length_insertAt. lia.
Qed.

Lemma reorderTasks_round_trip_witness :
  let tasks := [Some (plainTask "A" high 30); Some (plainTask "B" low 30);
                Some (plainTask "C" low 45)] in
  reorderTasks (reorderTasks tasks 0 2) 2 0 = tasks.
Proof.
  apply (reorderTasks_round_trip
           [Some (plainTask "A" high 30); Some (plainTask "B" low 30);
            Some (plainTask "C" low 45)] 0 2); simpl; lia.
Defined.

(** X18: a move from an index at or past the end of the list removes nothing
    and still inserts: the list grows by one entry, and that entry is
    [undefined]. *)
Theorem reorderTasks_from_past_the_end tasks fromIndex toIndex :
  Z.of_nat (List.length tasks) <= fromIndex ->
  0 <= toIndex ->
  let target := Z.to_nat (Z.min toIndex (Z.of_nat (List.length tasks))) in
  reorderTasks tasks fromIndex toIndex = insertAt target None tasks
  /\ List.length (reorderTasks tasks fromIndex toIndex) = S (List.length tasks)
  /\ nth_error (reorderTasks tasks fromIndex toIndex) target = Some None.
Proof.
  intros Hfrom Hto target.
  assert (Heq : reorderTasks tasks fromIndex toIndex = insertAt target None tasks).
  { unfold reorderTasks, splice.
    destruct (Z.ltb_spec fromIndex 0); [lia|].
    replace (Z.to_nat (Z.min fromIndex (Z.of_nat (List.length tasks))))
      with (List.length tasks) by lia.
    rewrite skipn_all, firstn_all, firstn_nil. cbn [app].
    rewrite skipn_all2 by lia. rewrite app_nil_r.
    destruct (Z.ltb_spec toIndex 0); [lia|]. cbn [snd].
    match goal with
    | |- context [Z.to_nat (Z.min (Z.max 0 0) ?d)] =>
        replace (Z.to_nat (Z.min (Z.max 0 0) d)) with 0%nat by lia
    end.
    rewrite Nat.add_0_r. reflexivity. }
  rewrite Heq. split; [reflexivity|]. split.
  - apply length_insertAt.
  - apply nth_error_insertAt. subst target. lia.
Qed.

Lemma reorderTasks_from_past_the_end_witness :
  let tasks := [Some (plainTask "A" high 30); Some (plainTask "B" low 30)] in
  reorderTasks tasks 2 0 = insertAt 0 None tasks
  /\ List.length (reorderTasks tasks 2 0) = S (List.length tasks)
  /\ nth_error (reorderTasks tasks 2 0) 0 = Some None.
Proof.
  apply (reorderTasks_from_past_the_end
           [Some (plainTask "A" high 30); Some (plainTask "B" low 30)] 2 0);
    simpl; lia.
Defined.

(** * A plain task on an empty calendar *)




